(** * keyforge-network: the packet dispatcher, the request handlers and the client

    A shallow embedding of [server_response.go] (the dispatcher and the
    request handlers of the session server) and of [client.go] (the request
    side), together with the properties the prose specification states about
    them.

    The handlers run against a [Server] value that also carries what a
    handler does to the outside: the packets it hands to the transport,
    the connections it closes, the lines it logs and the player mutexes it
    holds. *)

From Stdlib Require Import ZArith Lia.
From stdpp Require Import base list strings.

Open Scope string_scope.
Open Scope list_scope.

(** ** Data model *)

(** [net.Conn]: an opaque, comparable handle; [0] plays the nil interface. *)
Abbreviation Conn := nat (only parsing).

(** A [*Player].  Handlers compare players by pointer, so every player carries
    the address [NewPlayer] allocated it at; the fields are written once,
    between [NewPlayer] and [AddPlayer]. *)
Record Player := mkPlayer {
  addr : nat;
  ID : string;
  Name : string;
  Client : Conn
}.

(** Pointer comparison, the [==] of two [*Player]. *)
Definition same_player (p q : Player) : bool := Nat.eqb (addr p) (addr q).

(** The identifier [Lobby.ID()] returns; only compared and printed. *)
Abbreviation LobbyID := nat (only parsing).

Record Lobby := mkLobby {
  lobby_id : LobbyID;
  name : string;
  host : Player;
  players : list Player
}.

(** Errors: the [errors.New] values of the handlers, the failure of a registry
    lookup (whose text lives outside the handlers), and errors that come from
    the identity service or the transport. *)
Inductive Lookup :=
| ByConnection | ByPlayerID | ByLobbyID | ByLobbyName | ByLobbyPlayer.

Inductive error :=
| errors_New (text : string)
| lookup_failed (which : Lookup)
| foreign (code : nat).

(** *** Packets *)

Inductive PacketType :=
| PacketTypeVersionRequest
| PacketTypeLoginRequest
| PacketTypeExit
| PacketTypeCreateLobbyRequest
| PacketTypeCardPileRequest
| PacketTypePlayerListRequest
| PacketTypeGlobalChatRequest
| PacketTypeLobbyChatRequest
| PacketTypeLobbyListRequest
| PacketTypeJoinLobbyRequest
| PacketTypeLeaveLobbyRequest
| PacketTypeLobbyKickRequest
| PacketTypeOther (tag : nat).

Record VersionPacket := { version_Type : PacketType; Version : Z }.
Record LoginRequestPacket := {
  login_Type : PacketType; login_Name : string; login_ID : string;
  login_Token : string }.
Record ExitPacket := { exit_Type : PacketType }.
Record CreateLobbyRequestPacket := { create_Type : PacketType; create_Name : string }.
Record CardPileRequestPacket := { pile_Type : PacketType; Pile : Z }.
Record PlayerListRequestPacket := { playerlist_Type : PacketType }.
Record GlobalChatRequestPacket := { chat_Type : PacketType; Message : string }.
Record LobbyChatRequestPacket := { lobbychat_Type : PacketType; lobbychat_Message : string }.
Record LobbyListRequestPacket := { lobbylist_Type : PacketType }.
Record JoinLobbyRequestPacket := {
  join_Type : PacketType; join_ID : LobbyID; join_Name : string }.
Record LeaveLobbyRequestPacket := {
  leave_Type : PacketType; leave_ID : LobbyID; leave_Name : string }.
Record LobbyKickRequestPacket := { kick_Type : PacketType; Target : string }.

(** The [Packet] interface: one concrete struct per variant, each with its
    header's [Type], which the sender sets freely. *)
Inductive Packet :=
| PVersion (p : VersionPacket)
| PLoginRequest (p : LoginRequestPacket)
| PExit (p : ExitPacket)
| PCreateLobbyRequest (p : CreateLobbyRequestPacket)
| PCardPileRequest (p : CardPileRequestPacket)
| PPlayerListRequest (p : PlayerListRequestPacket)
| PGlobalChatRequest (p : GlobalChatRequestPacket)
| PLobbyChatRequest (p : LobbyChatRequestPacket)
| PLobbyListRequest (p : LobbyListRequestPacket)
| PJoinLobbyRequest (p : JoinLobbyRequestPacket)
| PLeaveLobbyRequest (p : LeaveLobbyRequestPacket)
| PLobbyKickRequest (p : LobbyKickRequestPacket).

(** [packet.GetHeader().Type] *)
Definition GetHeader_Type (packet : Packet) : PacketType :=
  match packet with
  | PVersion p => version_Type p
  | PLoginRequest p => login_Type p
  | PExit p => exit_Type p
  | PCreateLobbyRequest p => create_Type p
  | PCardPileRequest p => pile_Type p
  | PPlayerListRequest p => playerlist_Type p
  | PGlobalChatRequest p => chat_Type p
  | PLobbyChatRequest p => lobbychat_Type p
  | PLobbyListRequest p => lobbylist_Type p
  | PJoinLobbyRequest p => join_Type p
  | PLeaveLobbyRequest p => leave_Type p
  | PLobbyKickRequest p => kick_Type p
  end.

Record PlayerListEntry := { entry_ID : string; entry_Name : string }.
Record PlayerList := { Players : list PlayerListEntry; Count : nat }.
Record LobbyListEntry := { lentry_ID : LobbyID; lentry_Name : string }.
Record LobbyList := { LobbyEntries : list LobbyListEntry; LobbyCount : nat }.

(** What the server writes to a connection. *)
Inductive Response :=
| ErrorPacket (message : string)
| CreateLobbyResponse (id : LobbyID)
| PlayerListResponse (l : PlayerList)
| GlobalChatResponse (sender message : string)
| LobbyListResponse (l : LobbyList)
| JoinLobbyResponse (lobbyName : string) (id : LobbyID) (success : bool)
| LeaveLobbyResponse (lobbyName : string) (id : LobbyID) (success : bool)
| LobbyKickResponse (target : string) (success : bool).

(** One constructor per format string the handlers log, with its arguments. *)
Inductive LogEntry :=
| LogVersionPacket (packet : VersionPacket)
| LogVersionMismatch (client : Conn)
| LogCreateLobbyError (e : error)
| LogLobbyCreated (player lobby : string) (id : LobbyID)
| LogPlayerListError (e : error)
| LogPlayerListRequested (player : string)
| LogGlobalChat (player message : string)
| LogLobbyListRequested (player : string)
| LogKickDenied (player target : string).

(** *** The server and what it acts on *)

Record Server := mkServer {
  Clients : list Player;           (* the Player Registry, in insertion order *)
  Lobbies : list Lobby;            (* the Lobby Registry; a [*Lobby] is an index *)
  Debug : bool;
  next_addr : nat;                 (* where [NewPlayer] allocates next *)
  next_lobby : LobbyID;            (* the identifier [AddLobby] hands out next *)
  written : list (Conn * Response);(* packets handed to the transport, oldest first *)
  closed : list Conn;              (* connections closed, oldest first *)
  logged : list LogEntry;          (* lines logged, oldest first *)
  held : list nat;                 (* addresses of the player mutexes held *)
  deferred : list nat              (* pending [defer p.Unlock()], newest first *)
}.

Definition set_Clients (c : list Player) (s : Server) : Server :=
  mkServer c (Lobbies s) (Debug s) (next_addr s) (next_lobby s) (written s)
    (closed s) (logged s) (held s) (deferred s).
Definition set_Lobbies (l : list Lobby) (s : Server) : Server :=
  mkServer (Clients s) l (Debug s) (next_addr s) (next_lobby s) (written s)
    (closed s) (logged s) (held s) (deferred s).
Definition set_next_addr (n : nat) (s : Server) : Server :=
  mkServer (Clients s) (Lobbies s) (Debug s) n (next_lobby s) (written s)
    (closed s) (logged s) (held s) (deferred s).
Definition set_next_lobby (n : LobbyID) (s : Server) : Server :=
  mkServer (Clients s) (Lobbies s) (Debug s) (next_addr s) n (written s)
    (closed s) (logged s) (held s) (deferred s).
Definition set_written (w : list (Conn * Response)) (s : Server) : Server :=
  mkServer (Clients s) (Lobbies s) (Debug s) (next_addr s) (next_lobby s) w
    (closed s) (logged s) (held s) (deferred s).
Definition set_closed (c : list Conn) (s : Server) : Server :=
  mkServer (Clients s) (Lobbies s) (Debug s) (next_addr s) (next_lobby s)
    (written s) c (logged s) (held s) (deferred s).
Definition set_logged (l : list LogEntry) (s : Server) : Server :=
  mkServer (Clients s) (Lobbies s) (Debug s) (next_addr s) (next_lobby s)
    (written s) (closed s) l (held s) (deferred s).
Definition set_held (h : list nat) (s : Server) : Server :=
  mkServer (Clients s) (Lobbies s) (Debug s) (next_addr s) (next_lobby s)
    (written s) (closed s) (logged s) h (deferred s).
Definition set_deferred (d : list nat) (s : Server) : Server :=
  mkServer (Clients s) (Lobbies s) (Debug s) (next_addr s) (next_lobby s)
    (written s) (closed s) (logged s) (held s) d.

(** ** The monad of a handler run

    One goroutine runs a handler to its end.  It returns, or panics (a failed
    type assertion, a dangling lobby pointer), or blocks for ever on a mutex
    it holds itself ([sync.Mutex] is not reentrant). *)
Inductive Outcome (A : Type) : Type :=
| Returns (a : A) (s : Server)
| Panics
| Blocks (s : Server).
Arguments Returns {A} a s.
Arguments Panics {A}.
Arguments Blocks {A} s.

Definition Go (A : Type) : Type := Server -> Outcome A.

Definition ret {A} (a : A) : Go A := fun s => Returns a s.

Definition bind {A B} (m : Go A) (k : A -> Go B) : Go B :=
  fun s =>
    match m s with
    | Returns a s' => k a s'
    | Panics => Panics
    | Blocks s' => Blocks s'
    end.

Declare Scope go_scope.
Delimit Scope go_scope with go.
Notation "x <- m ;; k" := (bind m (fun x => k))
  (at level 100, m at next level, right associativity) : go_scope.
Notation "m ;; k" := (bind m (fun _ => k))
  (at level 100, right associativity) : go_scope.
Open Scope go_scope.

Definition get : Go Server := fun s => Returns s s.
Definition modify (f : Server -> Server) : Go unit := fun s => Returns tt (f s).
Definition panic {A} : Go A := fun _ => Panics.

(** [for _, x := range l { body }] over a slice taken before the loop. *)
Fixpoint range {A} (l : list A) (body : A -> Go unit) : Go unit :=
  match l with
  | [] => ret tt
  | x :: l' => body x ;; range l' body
  end.

(** *** Player mutexes and [defer] *)

(** [p.Lock()] *)
Definition Lock (p : Player) : Go unit :=
  fun s =>
    if bool_decide (addr p ∈ held s) then Blocks s
    else Returns tt (set_held (addr p :: held s) s).

Definition release (a : nat) (h : list nat) : list nat :=
  filter (fun b => b ≠ a) h.

(** [p.Unlock()] *)
Definition Unlock (p : Player) : Go unit :=
  modify (fun s => set_held (release (addr p) (held s)) s).

(** [defer p.Unlock()] *)
Definition defer_Unlock (p : Player) : Go unit :=
  modify (fun s => set_deferred (addr p :: deferred s) s).

(** A function body with its deferred calls: the body starts with none
    pending, and those it has registered run, newest first, when it returns;
    the caller's own are then pending again. *)
Definition func {A} (body : Go A) : Go A :=
  fun s =>
    match body (set_deferred [] s) with
    | Returns r s' =>
      Returns r
        (set_deferred (deferred s)
           (set_held (foldl (fun h a => release a h) (held s') (deferred s')) s'))
    | Panics => Panics
    | Blocks s' => Blocks s'
    end.

Definition gets {A} (f : Server -> A) : Go A := fun s => Returns (f s) s.

(** The [(value, error)] pair a lookup returns. *)
Inductive result (A : Type) : Type :=
| Ok (a : A)
| Err (e : error).
Arguments Ok {A} a.
Arguments Err {A} e.

(** A [*Lobby] points into the Lobby Registry. *)
Abbreviation LobbyPtr := nat (only parsing).

(** ** The server's helpers

    [server_response.go] calls these methods of [Server], [Lobby] and
    [Player]; their bodies are in the files of the repository that define the
    three types. *)

(** Modelled from the spec: [NewPlayer] allocates an empty [Player]; the
    address stands for the pointer it returns. *)
Definition NewPlayer : Go Player :=
  fun s => Returns (mkPlayer (next_addr s) "" "" 0) (set_next_addr (S (next_addr s)) s).

(** Modelled from the spec: [Server.AddPlayer] is the "one registry
    insertion" of a login, into a registry that maps a connection to its
    player ("keyed by connection"): the entry the connection had, if any, is
    replaced.  Iteration follows insertion order. *)
Definition AddPlayer (player : Player) : Go unit :=
  modify (fun s =>
    set_Clients (filter (fun q => Client q ≠ Client player) (Clients s) ++ [player]) s).

(** Modelled from the spec: one [Lobby]'s member set without [p]. *)
Definition remove_member (p : Player) (l : Lobby) : Lobby :=
  mkLobby (lobby_id l) (name l) (host l)
    (filter (fun q => same_player p q = false) (players l)).

(** Modelled from the spec: one [Lobby]'s member set with [p]; the members are
    an ordered set, so a member is not added twice. *)
Definition add_member (p : Player) (l : Lobby) : Lobby :=
  if existsb (same_player p) (players l) then l
  else mkLobby (lobby_id l) (name l) (host l) (players l ++ [p]).

(** Modelled from the spec: [Server.RemovePlayer] takes the player out of the
    Player Registry, and "removing a Player from the registry must also remove
    it from every Lobby it belongs to". *)
Definition RemovePlayer (player : Player) : Go unit :=
  modify (fun s =>
    set_Lobbies (remove_member player <$> Lobbies s)
      (set_Clients (filter (fun q => same_player player q = false) (Clients s)) s)).

(** Modelled from the spec: [Server.FindPlayerByConnection] resolves "the
    connection to a Player via the Player Registry", and fails with a lookup
    error for a connection that is not logged in. *)
Definition FindPlayerByConnection (client : Conn) : Go (result Player) :=
  gets (fun s =>
    match list_find (fun p => Client p = client) (Clients s) with
    | Some (_, p) => Ok p
    | None => Err (lookup_failed ByConnection)
    end).

(** Modelled from the spec: [Server.FindPlayerByID], the registry's "lookup by
    ID". *)
Definition FindPlayerByID (id : string) : Go (result Player) :=
  gets (fun s =>
    match list_find (fun p => ID p = id) (Clients s) with
    | Some (_, p) => Ok p
    | None => Err (lookup_failed ByPlayerID)
    end).

(** Modelled from the spec: [Server.AddLobby] creates "a new Lobby with the
    given name, requesting Player as Host and sole initial Member", under a
    fresh identifier, and inserts it into the Lobby Registry. *)
Definition AddLobby (player : Player) (lobbyName : string) : Go LobbyPtr :=
  fun s =>
    Returns (length (Lobbies s))
      (set_next_lobby (S (next_lobby s))
         (set_Lobbies (Lobbies s ++ [mkLobby (next_lobby s) lobbyName player [player]]) s)).

(** Modelled from the spec: [Server.FindLobbyByID], lookup of a lobby by its
    identifier. *)
Definition FindLobbyByID (id : LobbyID) : Go (result LobbyPtr) :=
  gets (fun s =>
    match list_find (fun l => lobby_id l = id) (Lobbies s) with
    | Some (i, _) => Ok i
    | None => Err (lookup_failed ByLobbyID)
    end).

(** Modelled from the spec: [Server.FindLobbyByName], lookup of a lobby by its
    name. *)
Definition FindLobbyByName (lobbyName : string) : Go (result LobbyPtr) :=
  gets (fun s =>
    match list_find (fun l => name l = lobbyName) (Lobbies s) with
    | Some (i, _) => Ok i
    | None => Err (lookup_failed ByLobbyName)
    end).

Definition member (p : Player) (l : Lobby) : bool := existsb (same_player p) (players l).

(** Modelled from the spec: [Server.FindLobbyByPlayer] resolves "the Lobby the
    requester currently belongs to". *)
Definition FindLobbyByPlayer (player : Player) : Go (result LobbyPtr) :=
  gets (fun s =>
    match list_find (fun l => member player l = true) (Lobbies s) with
    | Some (i, _) => Ok i
    | None => Err (lookup_failed ByLobbyPlayer)
    end).

(** Modelled from the spec: [Server.PlayerHasLobby] tells whether the player
    is "currently a member of any lobby". *)
Definition PlayerHasLobby (player : Player) : Go bool :=
  gets (fun s => existsb (member player) (Lobbies s)).

(** Reading through a [*Lobby]; a pointer to no lobby is a nil dereference. *)
Definition deref (lobby : LobbyPtr) : Go Lobby :=
  fun s =>
    match Lobbies s !! lobby with
    | Some l => Returns l s
    | None => Panics
    end.

(** Modelled from the spec: [Lobby.AddPlayer] adds the player to the member
    set of the lobby the pointer designates. *)
Definition Lobby_AddPlayer (lobby : LobbyPtr) (player : Player) : Go unit :=
  deref lobby ;;
  modify (fun s => set_Lobbies (alter (add_member player) lobby (Lobbies s)) s).

(** Modelled from the spec: [Lobby.RemovePlayer] removes the player from the
    member set of the lobby the pointer designates. *)
Definition Lobby_RemovePlayer (lobby : LobbyPtr) (player : Player) : Go unit :=
  deref lobby ;;
  modify (fun s => set_Lobbies (alter (remove_member player) lobby (Lobbies s)) s).

(** Modelled from the spec: [Server.CloseConnection] "forcibly closes the
    connection"; it leaves the registries alone (the exit handler removes the
    player itself). *)
Definition CloseConnection (client : Conn) : Go unit :=
  modify (fun s => set_closed (closed s ++ [client]) s).

(** Modelled from the spec: [Server.Log], the logging port. *)
Definition Log (entry : LogEntry) : Go unit :=
  modify (fun s => set_logged (logged s ++ [entry]) s).

(** The identity the vault returns for a token. *)
Record VaultUser := { vault_ID : string }.

(** ** What the code takes from outside

    The constants of the packet codec, the identity service
    ([RetrieveProfile] returns Go's pair of a profile and an error),
    [net.Dial], and the transport: the error, if any, that writing a response
    or a request to a connection reports. *)
Class Environment := {
  ProtocolVersion : Z;
  CardPileArchive : Z;
  RetrieveProfile : string -> VaultUser * option error;
  Dial : string -> Conn * option error;
  WriteError : Conn -> Response -> option error;
  WritePacketError : Conn -> Packet -> option error
}.

Section Handlers.
Context `{Environment}.

(** Modelled from the spec: the Response Sender "serializes and writes an
    outbound packet" to a connection; the [Send*] methods differ in the packet
    they build. *)
Definition transmit (c : Conn) (r : Response) : Go (option error) :=
  fun s => Returns (WriteError c r) (set_written (written s ++ [(c, r)]) s).

Definition SendErrorPacket (client : Conn) (message : string) : Go (option error) :=
  transmit client (ErrorPacket message).
Definition SendCreateLobbyResponse (p : Player) (id : LobbyID) : Go (option error) :=
  transmit (Client p) (CreateLobbyResponse id).
Definition SendPlayerListResponse (p : Player) (l : PlayerList) : Go (option error) :=
  transmit (Client p) (PlayerListResponse l).
Definition SendGlobalChatResponse (p : Player) (sender message : string) : Go (option error) :=
  transmit (Client p) (GlobalChatResponse sender message).
Definition SendLobbyListResponse (p : Player) (l : LobbyList) : Go (option error) :=
  transmit (Client p) (LobbyListResponse l).
Definition SendJoinLobbyResponse (p : Player) (lobbyName : string) (id : LobbyID)
    (success : bool) : Go (option error) :=
  transmit (Client p) (JoinLobbyResponse lobbyName id success).
Definition SendLeaveLobbyResponse (p : Player) (lobbyName : string) (id : LobbyID)
    (success : bool) : Go (option error) :=
  transmit (Client p) (LeaveLobbyResponse lobbyName id success).
Definition SendLobbyKickResponse (p : Player) (target : string) (success : bool)
    : Go (option error) :=
  transmit (Client p) (LobbyKickResponse target success).

(** ** The handlers of [server_response.go] *)

Definition HandleVersionRequest (client : Conn) (packet : VersionPacket) : Go unit :=
  Log (LogVersionPacket packet) ;;
  if bool_decide (Version packet ≠ ProtocolVersion) then
    debug <- gets Debug ;;
    (if debug then Log (LogVersionMismatch client) else ret tt) ;;
    SendErrorPacket client "Protocol version mismatch." ;;
    CloseConnection client
  else ret tt.

Definition HandleLoginRequest (client : Conn) (packet : LoginRequestPacket)
    : Go (option error) :=
  let '(vaultUser, e) := RetrieveProfile (login_Token packet) in
  match e with
  | Some e => ret (Some e)
  | None =>
    if bool_decide (vault_ID vaultUser ≠ login_ID packet) then
      SendErrorPacket client "Login failed." ;;
      CloseConnection client ;;
      ret (Some (errors_New "incorrect user ID supplied in packet"))
    else
      player <- NewPlayer ;;
      let player := mkPlayer (addr player) (login_ID packet) (login_Name packet) client in
      AddPlayer player ;;
      ret None
  end.

Definition HandleExitRequest (client : Conn) (packet : ExitPacket) : Go (option error) :=
  r <- FindPlayerByConnection client ;;
  match r with
  | Err e => ret (Some e)
  | Ok player =>
    CloseConnection (Client player) ;;
    RemovePlayer player ;;
    ret None
  end.

Definition HandleCreateLobbyRequest (client : Conn) (packet : CreateLobbyRequestPacket)
    : Go (option error) :=
  func (
    r <- FindPlayerByConnection client ;;
    match r with
    | Err e =>
      debug <- gets Debug ;;
      (if debug then Log (LogCreateLobbyError e) else ret tt) ;;
      ret (Some e)
    | Ok player =>
      Lock player ;;
      defer_Unlock player ;;
      lobby <- AddLobby player (create_Name packet) ;;
      l <- deref lobby ;;
      Log (LogLobbyCreated (Name player) (name l) (lobby_id l)) ;;
      e <- SendCreateLobbyResponse player (lobby_id l) ;;
      ret e
    end).

Definition HandlePlayerListRequest (client : Conn) (packet : PlayerListRequestPacket)
    : Go (option error) :=
  func (
    r <- FindPlayerByConnection client ;;
    match r with
    | Err e =>
      debug <- gets Debug ;;
      (if debug then Log (LogPlayerListError e) else ret tt) ;;
      ret (Some e)
    | Ok player =>
      Lock player ;;
      defer_Unlock player ;;
      clients <- gets Clients ;;
      let entries :=
        foldl (fun acc p => acc ++ [{| entry_ID := ID p; entry_Name := Name p |}]) [] clients in
      let playerList := {| Players := entries; Count := length entries |} in
      e <- SendPlayerListResponse player playerList ;;
      match e with
      | Some e => ret (Some e)
      | None =>
        Log (LogPlayerListRequested (Name player)) ;;
        ret None
      end
    end).

Definition HandleLobbyChatRequest (client : Conn) (packet : LobbyChatRequestPacket)
    : Go (option error) :=
  ret None.

Definition HandleGlobalChatRequest (client : Conn) (packet : GlobalChatRequestPacket)
    : Go (option error) :=
  func (
    r <- FindPlayerByConnection client ;;
    match r with
    | Err e => ret (Some e)
    | Ok player =>
      Lock player ;;
      let playerName := Name player in
      Unlock player ;;
      clients <- gets Clients ;;
      range clients (fun p =>
        Lock p ;;
        defer_Unlock p ;;
        SendGlobalChatResponse p playerName (Message packet) ;;
        ret tt) ;;
      Log (LogGlobalChat playerName (Message packet)) ;;
      ret None
    end).

Definition HandleLobbyListRequest (client : Conn) (packet : LobbyListRequestPacket)
    : Go (option error) :=
  r <- FindPlayerByConnection client ;;
  match r with
  | Err e => ret (Some e)
  | Ok player =>
    lobbies <- gets Lobbies ;;
    let entries :=
      foldl (fun acc lobby => acc ++ [{| lentry_ID := lobby_id lobby; lentry_Name := name lobby |}])
        [] lobbies in
    let lobbyList := {| LobbyEntries := entries; LobbyCount := length entries |} in
    SendLobbyListResponse player lobbyList ;;
    Log (LogLobbyListRequested (Name player)) ;;
    ret None
  end.

Definition HandleJoinLobbyRequest (client : Conn) (packet : JoinLobbyRequestPacket)
    : Go (option error) :=
  func (
    r <- FindPlayerByConnection client ;;
    match r with
    | Err e => ret (Some e)
    | Ok player =>
      r <- FindLobbyByID (join_ID packet) ;;
      match r with
      | Ok lobby =>
        Lobby_AddPlayer lobby player ;;
        l <- deref lobby ;;
        range (players l) (fun p =>
          Lock p ;;
          defer_Unlock p ;;
          SendJoinLobbyResponse p (name l) (lobby_id l) true ;;
          ret tt) ;;
        ret None
      | Err _ =>
        r <- FindLobbyByName (join_Name packet) ;;
        match r with
        | Ok lobby =>
          Lobby_AddPlayer lobby player ;;
          l <- deref lobby ;;
          range (players l) (fun p =>
            Lock p ;;
            defer_Unlock p ;;
            SendJoinLobbyResponse p (name l) (lobby_id l) true ;;
            ret tt) ;;
          ret None
        | Err _ => ret (Some (errors_New "no such lobby found"))
        end
      end
    end).

Definition HandleLeaveLobbyRequest (client : Conn) (packet : LeaveLobbyRequestPacket)
    : Go (option error) :=
  func (
    r <- FindPlayerByConnection client ;;
    match r with
    | Err e => ret (Some e)
    | Ok player =>
      has <- PlayerHasLobby player ;;
      if negb has then ret (Some (errors_New "player is not in a lobby"))
      else
        r <- FindLobbyByID (leave_ID packet) ;;
        match r with
        | Ok lobby =>
          Lobby_RemovePlayer lobby player ;;
          l <- deref lobby ;;
          range (players l) (fun p =>
            SendLeaveLobbyResponse p (name l) (lobby_id l) true ;;
            ret tt) ;;
          ret None
        | Err _ =>
          r <- FindLobbyByName (leave_Name packet) ;;
          match r with
          | Ok lobby =>
            Lobby_RemovePlayer lobby player ;;
            l <- deref lobby ;;
            range (players l) (fun p =>
              Lock p ;;
              defer_Unlock p ;;
              SendLeaveLobbyResponse p (name l) (lobby_id l) true ;;
              ret tt) ;;
            ret None
          | Err _ => ret (Some (errors_New "no such lobby found"))
          end
        end
    end).

Definition HandleLobbyKickRequest (client : Conn) (packet : LobbyKickRequestPacket)
    : Go (option error) :=
  r <- FindPlayerByConnection client ;;
  match r with
  | Err e => ret (Some e)
  | Ok player =>
    r <- FindPlayerByID (Target packet) ;;
    match r with
    | Err e => ret (Some e)
    | Ok targetPlayer =>
      r <- FindLobbyByPlayer player ;;
      match r with
      | Err e => ret (Some e)
      | Ok lobby =>
        l <- deref lobby ;;
        if negb (same_player (host l) player) then
          Log (LogKickDenied (Name player) (Name targetPlayer)) ;;
          ret (Some (errors_New "insufficient privileges; must be lobby host to kick users"))
        else
          Lobby_RemovePlayer lobby targetPlayer ;;
          SendLobbyKickResponse player (ID targetPlayer) true ;;
          SendLobbyKickResponse targetPlayer (ID targetPlayer) true ;;
          ret None
      end
    end
  end.

(** The dispatcher.  [packet.(T)] panics when the payload is not a [T]; the
    errors the handlers return are dropped. *)
Definition HandlePacket (client : Conn) (packet : Packet) : Go unit :=
  match GetHeader_Type packet with
  | PacketTypeVersionRequest =>
    match packet with
    | PVersion p => HandleVersionRequest client p
    | _ => panic
    end
  | PacketTypeLoginRequest =>
    match packet with
    | PLoginRequest p => HandleLoginRequest client p ;; ret tt
    | _ => panic
    end
  | PacketTypeGlobalChatRequest =>
    match packet with
    | PGlobalChatRequest p => HandleGlobalChatRequest client p ;; ret tt
    | _ => panic
    end
  | PacketTypePlayerListRequest =>
    match packet with
    | PPlayerListRequest p => HandlePlayerListRequest client p ;; ret tt
    | _ => panic
    end
  | PacketTypeCreateLobbyRequest =>
    match packet with
    | PCreateLobbyRequest p => HandleCreateLobbyRequest client p ;; ret tt
    | _ => panic
    end
  | PacketTypeLobbyListRequest =>
    match packet with
    | PLobbyListRequest p => HandleLobbyListRequest client p ;; ret tt
    | _ => panic
    end
  | PacketTypeJoinLobbyRequest =>
    match packet with
    | PJoinLobbyRequest p => HandleJoinLobbyRequest client p ;; ret tt
    | _ => panic
    end
  | PacketTypeLeaveLobbyRequest =>
    match packet with
    | PLeaveLobbyRequest p => HandleLeaveLobbyRequest client p ;; ret tt
    | _ => panic
    end
  | _ => ret tt
  end.

End Handlers.

(** The type tags [HandlePacket] has a case for. *)
Definition dispatched (t : PacketType) : bool :=
  match t with
  | PacketTypeVersionRequest | PacketTypeLoginRequest | PacketTypeGlobalChatRequest
  | PacketTypePlayerListRequest | PacketTypeCreateLobbyRequest
  | PacketTypeLobbyListRequest | PacketTypeJoinLobbyRequest
  | PacketTypeLeaveLobbyRequest => true
  | _ => false
  end.

(** ** The earlier copy of the handlers file

    The repository holds a second copy of [server_response.go], by its
    content an earlier state of the file: six request types dispatched, no
    leave and no kick handler, no player mutexes, the process-wide [Logger()]
    in place of [Server.Log], and a join that answers the joiner only. *)
Module Earlier.
Section Handlers.
Context `{Environment}.

(** Modelled from the spec: [Logger()], the "process-wide logger singleton";
    its [Log] and [Error] both write one line to the logging port. *)
Definition Logger_Log (entry : LogEntry) : Go unit := Log entry.
Definition Logger_Error (entry : LogEntry) : Go unit := Log entry.

Definition HandleVersionRequest (client : Conn) (packet : VersionPacket) : Go unit :=
  if bool_decide (Version packet ≠ ProtocolVersion) then
    Logger_Error (LogVersionMismatch client) ;;
    SendErrorPacket client "Protocol version mismatch." ;;
    CloseConnection client
  else ret tt.

Definition HandleLoginRequest (client : Conn) (packet : LoginRequestPacket)
    : Go (option error) :=
  let '(vaultUser, e) := RetrieveProfile (login_Token packet) in
  match e with
  | Some e => ret (Some e)
  | None =>
    if bool_decide (vault_ID vaultUser ≠ login_ID packet) then
      SendErrorPacket client "Login failed." ;;
      CloseConnection client ;;
      ret (Some (errors_New "incorrect user ID supplied in packet"))
    else
      player <- NewPlayer ;;
      let player := mkPlayer (addr player) (login_ID packet) (login_Name packet) client in
      AddPlayer player ;;
      ret None
  end.

Definition HandleExitRequest (client : Conn) (packet : ExitPacket) : Go (option error) :=
  r <- FindPlayerByConnection client ;;
  match r with
  | Err e => ret (Some e)
  | Ok player =>
    CloseConnection (Client player) ;;
    RemovePlayer player ;;
    ret None
  end.

Definition HandleCreateLobbyRequest (client : Conn) (packet : CreateLobbyRequestPacket)
    : Go (option error) :=
  r <- FindPlayerByConnection client ;;
  match r with
  | Err e =>
    debug <- gets Debug ;;
    (if debug then Logger_Log (LogCreateLobbyError e) else ret tt) ;;
    ret (Some e)
  | Ok player =>
    lobby <- AddLobby player (create_Name packet) ;;
    l <- deref lobby ;;
    Logger_Log (LogLobbyCreated (Name player) (name l) (lobby_id l)) ;;
    e <- SendCreateLobbyResponse player (lobby_id l) ;;
    ret e
  end.

Definition HandlePlayerListRequest (client : Conn) (packet : PlayerListRequestPacket)
    : Go (option error) :=
  r <- FindPlayerByConnection client ;;
  match r with
  | Err e =>
    debug <- gets Debug ;;
    (if debug then Logger_Log (LogPlayerListError e) else ret tt) ;;
    ret (Some e)
  | Ok player =>
    clients <- gets Clients ;;
    let entries :=
      foldl (fun acc p => acc ++ [{| entry_ID := ID p; entry_Name := Name p |}]) [] clients in
    let playerList := {| Players := entries; Count := length entries |} in
    e <- SendPlayerListResponse player playerList ;;
    match e with
    | Some e => ret (Some e)
    | None =>
      Logger_Log (LogPlayerListRequested (Name player)) ;;
      ret None
    end
  end.

Definition HandleLobbyChatRequest (client : Conn) (packet : LobbyChatRequestPacket)
    : Go (option error) :=
  ret None.

Definition HandleGlobalChatRequest (client : Conn) (packet : GlobalChatRequestPacket)
    : Go (option error) :=
  r <- FindPlayerByConnection client ;;
  match r with
  | Err e => ret (Some e)
  | Ok player =>
    clients <- gets Clients ;;
    range clients (fun p =>
      SendGlobalChatResponse p (Name player) (Message packet) ;;
      ret tt) ;;
    Logger_Log (LogGlobalChat (Name player) (Message packet)) ;;
    ret None
  end.

Definition HandleLobbyListRequest (client : Conn) (packet : LobbyListRequestPacket)
    : Go (option error) :=
  r <- FindPlayerByConnection client ;;
  match r with
  | Err e => ret (Some e)
  | Ok player =>
    lobbies <- gets Lobbies ;;
    let entries :=
      foldl (fun acc lobby => acc ++ [{| lentry_ID := lobby_id lobby; lentry_Name := name lobby |}])
        [] lobbies in
    let lobbyList := {| LobbyEntries := entries; LobbyCount := length entries |} in
    SendLobbyListResponse player lobbyList ;;
    Logger_Log (LogLobbyListRequested (Name player)) ;;
    ret None
  end.

Definition HandleJoinLobbyRequest (client : Conn) (packet : JoinLobbyRequestPacket)
    : Go (option error) :=
  r <- FindPlayerByConnection client ;;
  match r with
  | Err e => ret (Some e)
  | Ok player =>
    r <- FindLobbyByID (join_ID packet) ;;
    match r with
    | Ok lobby =>
      Lobby_AddPlayer lobby player ;;
      l <- deref lobby ;;
      SendJoinLobbyResponse player (name l) (lobby_id l) true ;;
      ret None
    | Err _ =>
      r <- FindLobbyByName (join_Name packet) ;;
      match r with
      | Ok lobby =>
        Lobby_AddPlayer lobby player ;;
        l <- deref lobby ;;
        SendJoinLobbyResponse player (name l) (lobby_id l) true ;;
        ret None
      | Err _ => ret (Some (errors_New "no lobby found"))
      end
    end
  end.

Definition HandlePacket (client : Conn) (packet : Packet) : Go unit :=
  match GetHeader_Type packet with
  | PacketTypeVersionRequest =>
    match packet with
    | PVersion p => HandleVersionRequest client p
    | _ => panic
    end
  | PacketTypeLoginRequest =>
    match packet with
    | PLoginRequest p => HandleLoginRequest client p ;; ret tt
    | _ => panic
    end
  | PacketTypeGlobalChatRequest =>
    match packet with
    | PGlobalChatRequest p => HandleGlobalChatRequest client p ;; ret tt
    | _ => panic
    end
  | PacketTypePlayerListRequest =>
    match packet with
    | PPlayerListRequest p => HandlePlayerListRequest client p ;; ret tt
    | _ => panic
    end
  | PacketTypeCreateLobbyRequest =>
    match packet with
    | PCreateLobbyRequest p => HandleCreateLobbyRequest client p ;; ret tt
    | _ => panic
    end
  | PacketTypeLobbyListRequest =>
    match packet with
    | PLobbyListRequest p => HandleLobbyListRequest client p ;; ret tt
    | _ => panic
    end
  | _ => ret tt
  end.

End Handlers.
End Earlier.

(** ** The client of [client.go] *)
Module ClientSide.

Record Client := mkClient {
  Connection : Conn;
  Sequence : Z                     (* a [uint16] *)
}.

(** The value a [uint16] holds after an arithmetic step. *)
Definition uint16 (z : Z) : Z := z mod 65536.

(** [c.Sequence++] *)
Definition incr_Sequence (c : Client) : Client :=
  mkClient (Connection c) (uint16 (Sequence c + 1)).

(** The requests written so far, oldest first. *)
Definition Wire := list (Conn * Packet).

Section ClientMethods.
Context `{Environment}.

(** Modelled from the spec: [WritePacket] writes the packet "through the same
    codec" to the connection and reports the transport's error. *)
Definition WritePacket (conn : Conn) (packet : Packet) (w : Wire) : option error * Wire :=
  (WritePacketError conn packet, w ++ [(conn, packet)]).

Definition NewClient : Client := mkClient 0 0.

Definition Connect (c : Client) (address : string) : option error * Client :=
  let '(conn, e) := Dial address in
  let c := mkClient conn (Sequence c) in
  match e with
  | Some e => (Some e, c)
  | None => (None, c)
  end.

Definition SendVersionRequest (c : Client) (w : Wire) : option error * Client * Wire :=
  let packet := {| version_Type := PacketTypeVersionRequest; Version := ProtocolVersion |} in
  let '(e, w) := WritePacket (Connection c) (PVersion packet) w in
  let c := incr_Sequence c in
  (e, c, w).

Definition SendExitRequest (c : Client) (w : Wire) : option error * Client * Wire :=
  let packet := {| exit_Type := PacketTypeExit |} in
  let '(e, w) := WritePacket (Connection c) (PExit packet) w in
  let c := incr_Sequence c in
  (e, c, w).

Definition SendLoginRequest (c : Client) (name id token : string) (w : Wire)
    : option error * Client * Wire :=
  let packet := {| login_Type := PacketTypeLoginRequest; login_Name := name;
                   login_ID := id; login_Token := token |} in
  let '(e, w) := WritePacket (Connection c) (PLoginRequest packet) w in
  let c := incr_Sequence c in
  (e, c, w).

Definition SendCreateLobbyRequest (c : Client) (name : string) (w : Wire)
    : option error * Client * Wire :=
  let packet := {| create_Type := PacketTypeCreateLobbyRequest; create_Name := name |} in
  let '(e, w) := WritePacket (Connection c) (PCreateLobbyRequest packet) w in
  let c := incr_Sequence c in
  (e, c, w).

Definition SendGetCardPile (c : Client) (pile : Z) (w : Wire)
    : option error * Client * Wire :=
  let packet := {| pile_Type := PacketTypeCardPileRequest; Pile := pile |} in
  let '(e, w) := WritePacket (Connection c) (PCardPileRequest packet) w in
  let c := incr_Sequence c in
  (e, c, w).

Definition SendPlayerListRequest (c : Client) (w : Wire) : option error * Client * Wire :=
  let packet := {| playerlist_Type := PacketTypePlayerListRequest |} in
  let '(e, w) := WritePacket (Connection c) (PPlayerListRequest packet) w in
  let c := incr_Sequence c in
  (e, c, w).

Definition SendGlobalChatRequest (c : Client) (message : string) (w : Wire)
    : option error * Client * Wire :=
  let packet := {| chat_Type := PacketTypeGlobalChatRequest; Message := message |} in
  let '(e, w) := WritePacket (Connection c) (PGlobalChatRequest packet) w in
  let c := incr_Sequence c in
  (e, c, w).

Definition SendLobbyListRequest (c : Client) (w : Wire) : option error * Client * Wire :=
  let packet := {| lobbylist_Type := PacketTypeLobbyListRequest |} in
  let '(e, w) := WritePacket (Connection c) (PLobbyListRequest packet) w in
  let c := incr_Sequence c in
  (e, c, w).

Definition SendJoinLobbyRequest (c : Client) (query : string) (w : Wire)
    : option error * Client * Wire :=
  let packet := {| join_Type := PacketTypeJoinLobbyRequest; join_ID := 0;
                   join_Name := query |} in
  let '(e, w) := WritePacket (Connection c) (PJoinLobbyRequest packet) w in
  let c := incr_Sequence c in
  (e, c, w).

(** [SendGetArchivePile] drops the error. *)
Definition SendGetArchivePile (c : Client) (w : Wire) : Client * Wire :=
  let '(_, c, w) := SendGetCardPile c CardPileArchive w in
  (c, w).

(** One call of a [Send*] method with its arguments, and a run of such calls
    on one client. *)
Inductive SendCall :=
| CallVersionRequest
| CallExitRequest
| CallLoginRequest (name id token : string)
| CallCreateLobbyRequest (name : string)
| CallGetCardPile (pile : Z)
| CallPlayerListRequest
| CallGlobalChatRequest (message : string)
| CallLobbyListRequest
| CallJoinLobbyRequest (query : string).

Definition call (k : SendCall) (c : Client) (w : Wire) : option error * Client * Wire :=
  match k with
  | CallVersionRequest => SendVersionRequest c w
  | CallExitRequest => SendExitRequest c w
  | CallLoginRequest name id token => SendLoginRequest c name id token w
  | CallCreateLobbyRequest name => SendCreateLobbyRequest c name w
  | CallGetCardPile pile => SendGetCardPile c pile w
  | CallPlayerListRequest => SendPlayerListRequest c w
  | CallGlobalChatRequest message => SendGlobalChatRequest c message w
  | CallLobbyListRequest => SendLobbyListRequest c w
  | CallJoinLobbyRequest query => SendJoinLobbyRequest c query w
  end.

Fixpoint calls (ks : list SendCall) (c : Client) (w : Wire) : Client * Wire :=
  match ks with
  | [] => (c, w)
  | k :: ks' => let '(_, c, w) := call k c w in calls ks' c w
  end.

End ClientMethods.
End ClientSide.

(** ** Sample worlds, for running the handlers *)

(** An environment in which the vault knows every token as the identity of
    the same name, the protocol version is 1 and no write fails. *)
Definition quiet : Environment := {|
  ProtocolVersion := 1;
  CardPileArchive := 0;
  RetrieveProfile := fun token => ({| vault_ID := token |}, None);
  Dial := fun _ => (1, None);
  WriteError := fun _ _ => None;
  WritePacketError := fun _ _ => None
|}.

Definition alice : Player := mkPlayer 1 "alice" "Alice" 11.
Definition bob : Player := mkPlayer 2 "bob" "Bob" 12.
Definition carol : Player := mkPlayer 3 "carol" "Carol" 13.

(** Nobody logged in, no lobby. *)
Definition empty_server : Server := mkServer [] [] false 1 1 [] [] [] [] [].

(** Alice hosts lobby 7, "Foo", with Bob in it; Carol is logged in and in no
    lobby. *)
Definition foo : Lobby := mkLobby 7 "Foo" alice [alice; bob].
Definition lobby_server : Server :=
  mkServer [alice; bob; carol] [foo] false 4 8 [] [] [] [] [].

(** An environment in which the vault rejects the token "expired" and every
    write to connection 13 fails. *)
Definition flaky : Environment := {|
  ProtocolVersion := 1;
  CardPileArchive := 0;
  RetrieveProfile := fun token =>
    if String.eqb token "expired" then ({| vault_ID := "" |}, Some (foreign 401))
    else ({| vault_ID := token |}, None);
  Dial := fun _ => (0, Some (foreign 111));
  WriteError := fun c _ => if Nat.eqb c 13 then Some (foreign 32) else None;
  WritePacketError := fun c _ => if Nat.eqb c 13 then Some (foreign 32) else None
|}.


(** The tag under which [client.go] sends each concrete packet type, which is
    also the tag in whose case the dispatcher asserts that type. *)
Definition payload_tag (packet : Packet) : PacketType :=
  match packet with
  | PVersion _ => PacketTypeVersionRequest
  | PLoginRequest _ => PacketTypeLoginRequest
  | PExit _ => PacketTypeExit
  | PCreateLobbyRequest _ => PacketTypeCreateLobbyRequest
  | PCardPileRequest _ => PacketTypeCardPileRequest
  | PPlayerListRequest _ => PacketTypePlayerListRequest
  | PGlobalChatRequest _ => PacketTypeGlobalChatRequest
  | PLobbyChatRequest _ => PacketTypeLobbyChatRequest
  | PLobbyListRequest _ => PacketTypeLobbyListRequest
  | PJoinLobbyRequest _ => PacketTypeJoinLobbyRequest
  | PLeaveLobbyRequest _ => PacketTypeLeaveLobbyRequest
  | PLobbyKickRequest _ => PacketTypeLobbyKickRequest
  end.

(** The type tags the dispatcher of the earlier copy has a case for. *)
Definition earlier_dispatched (t : PacketType) : bool :=
  match t with
  | PacketTypeVersionRequest | PacketTypeLoginRequest | PacketTypeGlobalChatRequest
  | PacketTypePlayerListRequest | PacketTypeCreateLobbyRequest
  | PacketTypeLobbyListRequest => true
  | _ => false
  end.

(** ** Properties *)

(** *** Login *)

Lemma earlier_login_same `{Environment} :
  Earlier.HandleLoginRequest = HandleLoginRequest.
Proof. reflexivity. Qed.

(** C1.  When the identity service returns an identity whose ID differs from
    the ID the packet claims, [HandleLoginRequest] writes exactly one packet,
    [ErrorPacket "Login failed."], to the connection, closes the connection,
    returns an error, and leaves both registries as they were. *)
Theorem login_id_mismatch `{Environment} (client : Conn) (packet : LoginRequestPacket)
    (vaultUser : VaultUser) (s : Server) :
  RetrieveProfile (login_Token packet) = (vaultUser, None) ->
  vault_ID vaultUser ≠ login_ID packet ->
  ∃ s', HandleLoginRequest client packet s
          = Returns (Some (errors_New "incorrect user ID supplied in packet")) s'
      ∧ written s' = written s ++ [(client, ErrorPacket "Login failed.")]
      ∧ closed s' = closed s ++ [client]
      ∧ Clients s' = Clients s
      ∧ Lobbies s' = Lobbies s.
Proof.
  intros Hprofile Hid. unfold HandleLoginRequest. rewrite Hprofile.
  rewrite bool_decide_true by exact Hid.
  eexists. split; [reflexivity|]. cbn. auto.
Qed.

Lemma login_id_mismatch_witness :
  ∃ s', @HandleLoginRequest quiet 11
          {| login_Type := PacketTypeLoginRequest; login_Name := "Alice";
             login_ID := "alice"; login_Token := "mallory" |} lobby_server
          = Returns (Some (errors_New "incorrect user ID supplied in packet")) s'
      ∧ written s' = [(11, ErrorPacket "Login failed.")]
      ∧ closed s' = [11]
      ∧ Clients s' = [alice; bob; carol]
      ∧ Lobbies s' = [foo].
Proof.
  apply (@login_id_mismatch quiet 11 _ {| vault_ID := "mallory" |} lobby_server).
  - reflexivity.
  - cbn. discriminate.
Defined.

(** *** Version handshake *)

(** C2, as the code has it.  In both copies [HandleVersionRequest] writes
    exactly one packet, the error "Protocol version mismatch.", to the
    connection and closes it on a version other than [ProtocolVersion], and
    writes nothing and closes nothing on [ProtocolVersion] itself.  The
    current copy logs the packet on every call and the mismatch exactly when
    [Debug] is set; the earlier copy logs the mismatch on every mismatch,
    whatever [Debug] says, and nothing else. *)
Theorem version_request `{Environment} (client : Conn) (packet : VersionPacket) (s : Server) :
  (∃ s', HandleVersionRequest client packet s = Returns tt s'
       ∧ Clients s' = Clients s ∧ Lobbies s' = Lobbies s
       ∧ (Version packet ≠ ProtocolVersion ->
            written s' = written s ++ [(client, ErrorPacket "Protocol version mismatch.")]
          ∧ closed s' = closed s ++ [client]
          ∧ logged s' = logged s ++ LogVersionPacket packet
                          :: (if Debug s then [LogVersionMismatch client] else []))
       ∧ (Version packet = ProtocolVersion ->
            written s' = written s
          ∧ closed s' = closed s
          ∧ logged s' = logged s ++ [LogVersionPacket packet]))
  ∧ (∃ s', Earlier.HandleVersionRequest client packet s = Returns tt s'
         ∧ Clients s' = Clients s ∧ Lobbies s' = Lobbies s
         ∧ (Version packet ≠ ProtocolVersion ->
              written s' = written s ++ [(client, ErrorPacket "Protocol version mismatch.")]
            ∧ closed s' = closed s ++ [client]
            ∧ logged s' = logged s ++ [LogVersionMismatch client])
         ∧ (Version packet = ProtocolVersion ->
              written s' = written s
            ∧ closed s' = closed s
            ∧ logged s' = logged s)).
Proof.
  split.
  - unfold HandleVersionRequest.
    destruct (decide (Version packet = ProtocolVersion)) as [Heq|Hne].
    + rewrite bool_decide_false by (intros Hc; exact (Hc Heq)).
      eexists. split; [reflexivity|]. cbn.
      split; [reflexivity|]. split; [reflexivity|]. split.
      * intros Hc. destruct (Hc Heq).
      * intros _. auto.
    + rewrite bool_decide_true by exact Hne.
      destruct (Debug s) eqn:Hd.
      * eexists. split; [cbn; rewrite Hd; reflexivity|]. cbn.
        split; [reflexivity|]. split; [reflexivity|]. split.
        -- intros _. rewrite <- app_assoc. auto.
        -- intros Hc. destruct (Hne Hc).
      * eexists. split; [cbn; rewrite Hd; reflexivity|]. cbn.
        split; [reflexivity|]. split; [reflexivity|]. split.
        -- intros _. auto.
        -- intros Hc. destruct (Hne Hc).
  - unfold Earlier.HandleVersionRequest.
    destruct (decide (Version packet = ProtocolVersion)) as [Heq|Hne].
    + rewrite bool_decide_false by (intros Hc; exact (Hc Heq)).
      eexists. split; [reflexivity|].
      split; [reflexivity|]. split; [reflexivity|]. split.
      * intros Hc. destruct (Hc Heq).
      * intros _. auto.
    + rewrite bool_decide_true by exact Hne.
      eexists. split; [reflexivity|]. cbn.
      split; [reflexivity|]. split; [reflexivity|]. split.
      * intros _. auto.
      * intros Hc. destruct (Hne Hc).
Qed.

Lemma version_request_witness :
  (∃ s', @HandleVersionRequest quiet 11
           {| version_Type := PacketTypeVersionRequest; Version := 2 |} lobby_server
           = Returns tt s'
       ∧ written s' = [(11, ErrorPacket "Protocol version mismatch.")]
       ∧ closed s' = [11]
       ∧ logged s' = [LogVersionPacket {| version_Type := PacketTypeVersionRequest;
                                          Version := 2 |}])
  ∧ (∃ s', @HandleVersionRequest quiet 11
             {| version_Type := PacketTypeVersionRequest; Version := 1 |} lobby_server
             = Returns tt s'
         ∧ written s' = []
         ∧ closed s' = []
         ∧ logged s' = [LogVersionPacket {| version_Type := PacketTypeVersionRequest;
                                            Version := 1 |}])
  ∧ (∃ s', @Earlier.HandleVersionRequest quiet 11
             {| version_Type := PacketTypeVersionRequest; Version := 2 |} lobby_server
             = Returns tt s'
         ∧ written s' = [(11, ErrorPacket "Protocol version mismatch.")]
         ∧ closed s' = [11]
         ∧ logged s' = [LogVersionMismatch 11]).
Proof.
  split; [|split].
  - destruct (proj1 (@version_request quiet 11
                       {| version_Type := PacketTypeVersionRequest; Version := 2 |}
                       lobby_server))
      as (s' & Hrun & _ & _ & Hmismatch & _).
    exists s'. split; [exact Hrun|]. apply Hmismatch. cbn. discriminate.
  - destruct (proj1 (@version_request quiet 11
                       {| version_Type := PacketTypeVersionRequest; Version := 1 |}
                       lobby_server))
      as (s' & Hrun & _ & _ & _ & Hequal).
    exists s'. split; [exact Hrun|]. apply Hequal. reflexivity.
  - destruct (proj2 (@version_request quiet 11
                       {| version_Type := PacketTypeVersionRequest; Version := 2 |}
                       lobby_server))
      as (s' & Hrun & _ & _ & Hmismatch & _).
    exists s'. split; [exact Hrun|]. apply Hmismatch. cbn. discriminate.
Defined.

(** With [Debug] off, the earlier copy still logs the mismatch: there the
    log entry does not depend on debug logging. *)
Lemma earlier_version_logs_without_debug :
  let packet := {| version_Type := PacketTypeVersionRequest; Version := 2 |} in
  Debug lobby_server = false
  ∧ Version packet ≠ @ProtocolVersion quiet
  ∧ ∃ s', @Earlier.HandleVersionRequest quiet 11 packet lobby_server = Returns tt s'
        ∧ logged lobby_server = []
        ∧ logged s' = [LogVersionMismatch 11].
Proof.
  cbn zeta. split; [reflexivity|]. split; [cbn; discriminate|].
  eexists. split; [reflexivity|]. split; reflexivity.
Qed.

(** The earlier copy logs the mismatch through [Logger().Error] whatever
    [Debug] says, and does not log the packet itself. *)
Lemma earlier_version_mismatch_logged `{Environment} (client : Conn)
    (packet : VersionPacket) (s : Server) :
  Version packet ≠ ProtocolVersion ->
  ∃ s', Earlier.HandleVersionRequest client packet s = Returns tt s'
      ∧ written s' = written s ++ [(client, ErrorPacket "Protocol version mismatch.")]
      ∧ closed s' = closed s ++ [client]
      ∧ logged s' = logged s ++ [LogVersionMismatch client].
Proof.
  intros Hne. unfold Earlier.HandleVersionRequest.
  rewrite bool_decide_true by exact Hne.
  eexists. split; [reflexivity|]. cbn. auto.
Qed.

(** *** The dispatcher *)

(** A packet whose tag has no case falls through the switch: no handler runs,
    nothing is written, closed or logged, and the call returns. *)
Lemma HandlePacket_unmatched `{Environment} (client : Conn) (packet : Packet) (s : Server) :
  dispatched (GetHeader_Type packet) = false ->
  HandlePacket client packet s = Returns tt s.
Proof.
  unfold HandlePacket. destruct (GetHeader_Type packet); cbn; intros Hd;
    try discriminate Hd; reflexivity.
Qed.

(** For each tag with a case, and the payload the tag announces, the one
    handler of that tag runs and its error is dropped. *)
Lemma HandlePacket_matched `{Environment} (client : Conn) :
  (∀ p, version_Type p = PacketTypeVersionRequest ->
     HandlePacket client (PVersion p) = HandleVersionRequest client p)
  ∧ (∀ p, login_Type p = PacketTypeLoginRequest ->
     HandlePacket client (PLoginRequest p) = (HandleLoginRequest client p ;; ret tt))
  ∧ (∀ p, chat_Type p = PacketTypeGlobalChatRequest ->
     HandlePacket client (PGlobalChatRequest p) = (HandleGlobalChatRequest client p ;; ret tt))
  ∧ (∀ p, playerlist_Type p = PacketTypePlayerListRequest ->
     HandlePacket client (PPlayerListRequest p) = (HandlePlayerListRequest client p ;; ret tt))
  ∧ (∀ p, create_Type p = PacketTypeCreateLobbyRequest ->
     HandlePacket client (PCreateLobbyRequest p) = (HandleCreateLobbyRequest client p ;; ret tt))
  ∧ (∀ p, lobbylist_Type p = PacketTypeLobbyListRequest ->
     HandlePacket client (PLobbyListRequest p) = (HandleLobbyListRequest client p ;; ret tt))
  ∧ (∀ p, join_Type p = PacketTypeJoinLobbyRequest ->
     HandlePacket client (PJoinLobbyRequest p) = (HandleJoinLobbyRequest client p ;; ret tt))
  ∧ (∀ p, leave_Type p = PacketTypeLeaveLobbyRequest ->
     HandlePacket client (PLeaveLobbyRequest p) = (HandleLeaveLobbyRequest client p ;; ret tt)).
Proof.
  repeat split; intros p Ht; unfold HandlePacket; cbn; rewrite Ht; reflexivity.
Qed.

(** C7.  An exit, lobby-chat or kick request reaches no handler: the switch
    of [HandlePacket] has no case for these three tags, although
    [HandleExitRequest], [HandleLobbyChatRequest] and [HandleLobbyKickRequest]
    exist.  Alice's exit request, dispatched, leaves the server as it was,
    whereas [HandleExitRequest] on the same packet closes her connection and
    takes her out of the registry and of lobby Foo. *)
Theorem exit_request_not_dispatched :
  let packet := {| exit_Type := PacketTypeExit |} in
  @HandlePacket quiet 11 (PExit packet) lobby_server = Returns tt lobby_server
  ∧ (∃ s', HandleExitRequest 11 packet lobby_server = Returns None s'
         ∧ Clients s' = [bob; carol]
         ∧ Lobbies s' = [mkLobby 7 "Foo" alice [bob]]
         ∧ closed s' = [11])
  ∧ (∀ (H : Environment) client message s,
       HandlePacket client
         (PLobbyChatRequest {| lobbychat_Type := PacketTypeLobbyChatRequest;
                               lobbychat_Message := message |}) s = Returns tt s)
  ∧ (∀ (H : Environment) client target s,
       HandlePacket client
         (PLobbyKickRequest {| kick_Type := PacketTypeLobbyKickRequest;
                               Target := target |}) s = Returns tt s).
Proof.
  cbn zeta. split; [reflexivity|]. split.
  - eexists. split; [vm_compute; reflexivity|]. cbn. auto.
  - split; intros; reflexivity.
Qed.

(** *** Exit *)

Lemma not_same_after_filter (p q : Player) (l : list Player) :
  q ∈ filter (fun q => same_player p q = false) l -> same_player p q = false.
Proof. intros Hq. apply list_elem_of_filter in Hq. tauto. Qed.

(** C8.  When the connection resolves to a registered player,
    [HandleExitRequest] returns without error, has closed the player's
    connection, and afterwards no entry of the Player Registry and no member
    of any lobby is that player. *)
Theorem exit_removes_player (client : Conn) (packet : ExitPacket) (player : Player)
    (s : Server) :
  FindPlayerByConnection client s = Returns (Ok player) s ->
  ∃ s', HandleExitRequest client packet s = Returns None s'
      ∧ closed s' = closed s ++ [Client player]
      ∧ (∀ q, q ∈ Clients s' -> same_player player q = false)
      ∧ (∀ l q, l ∈ Lobbies s' -> q ∈ players l -> same_player player q = false).
Proof.
  intros Hfind. unfold HandleExitRequest, bind. rewrite Hfind.
  eexists. split; [reflexivity|]. cbn. split; [reflexivity|]. split.
  - intros q Hq. exact (not_same_after_filter _ _ _ Hq).
  - intros l q Hl Hq. apply list_elem_of_fmap in Hl as (l0 & -> & _).
    exact (not_same_after_filter _ _ _ Hq).
Qed.

Lemma exit_removes_player_witness :
  ∃ s', HandleExitRequest 11 {| exit_Type := PacketTypeExit |} lobby_server = Returns None s'
      ∧ closed s' = [11]
      ∧ (∀ q, q ∈ Clients s' -> same_player alice q = false)
      ∧ (∀ l q, l ∈ Lobbies s' -> q ∈ players l -> same_player alice q = false).
Proof.
  apply (exit_removes_player 11 {| exit_Type := PacketTypeExit |} alice lobby_server).
  reflexivity.
Defined.

(** A lookup reads the registries only: what it returns in [s] it returns
    in any server with the same registries. *)
Lemma gets_frame {A} (f : Server -> A) (s s' : Server) (r : A) :
  gets f s = Returns r s -> f s' = f s -> gets f s' = Returns r s'.
Proof. unfold gets. intros [= Hr] Hf. rewrite Hf, Hr. reflexivity. Qed.

Ltac lookup_in_frame Hlookup :=
  match type of Hlookup with
  | ?f ?s = Returns ?r ?s =>
    let Hq := fresh "Hq" in
    assert (f (set_deferred [] s) = Returns r (set_deferred [] s)) as Hq
      by (apply (gets_frame _ s); [exact Hlookup | reflexivity]);
    rewrite Hq; clear Hq
  end.

(** *** Leaving and joining: the failing paths *)

Lemma func_frame_unchanged (s : Server) :
  set_deferred (deferred s)
    (set_held (foldl (fun h a => release a h) (held (set_deferred [] s)) [])
       (set_deferred [] s)) = s.
Proof. destruct s; reflexivity. Qed.

(** C6.  A leave request from a logged-in player for whom [PlayerHasLobby]
    is false returns the error "player is not in a lobby" right after the
    check, and the server is exactly as it was: no lobby was looked up, no
    member set touched, nothing written. *)
Theorem leave_without_lobby `{Environment} (client : Conn) (packet : LeaveLobbyRequestPacket)
    (player : Player) (s : Server) :
  FindPlayerByConnection client s = Returns (Ok player) s ->
  PlayerHasLobby player s = Returns false s ->
  HandleLeaveLobbyRequest client packet s
    = Returns (Some (errors_New "player is not in a lobby")) s.
Proof.
  intros Hfind Hhas. unfold HandleLeaveLobbyRequest, func, bind.
  lookup_in_frame Hfind. lookup_in_frame Hhas.
  cbn. f_equal. apply func_frame_unchanged.
Qed.

Lemma leave_without_lobby_witness :
  @HandleLeaveLobbyRequest quiet 13
    {| leave_Type := PacketTypeLeaveLobbyRequest; leave_ID := 7; leave_Name := "Foo" |}
    lobby_server
  = Returns (Some (errors_New "player is not in a lobby")) lobby_server.
Proof.
  apply (@leave_without_lobby quiet 13 _ carol lobby_server); reflexivity.
Defined.

(** [PlayerHasLobby] is false exactly when no lobby has the player among its
    members. *)
Lemma PlayerHasLobby_false (player : Player) (s : Server) :
  PlayerHasLobby player s = Returns false s
  ↔ ∀ l, l ∈ Lobbies s -> member player l = false.
Proof.
  unfold PlayerHasLobby, gets. split.
  - intros Hrun l Hl. destruct (member player l) eqn:Hm; [|reflexivity].
    assert (existsb (member player) (Lobbies s) = true) as Hex.
    { apply existsb_exists. exists l. split; [apply list_elem_of_In; exact Hl|exact Hm]. }
    rewrite Hex in Hrun. discriminate Hrun.
  - intros Hall. f_equal. destruct (existsb (member player) (Lobbies s)) eqn:Hex; [|reflexivity].
    apply existsb_exists in Hex as (l & Hl & Hm).
    apply list_elem_of_In in Hl. rewrite (Hall l Hl) in Hm. discriminate Hm.
Qed.

(** C5.  A join request from a logged-in player for which neither
    [FindLobbyByID] nor [FindLobbyByName] finds a lobby returns the error
    "no such lobby found" ("no lobby found" in the earlier copy) and leaves
    the server exactly as it was. *)
Theorem join_no_lobby `{Environment} (client : Conn) (packet : JoinLobbyRequestPacket)
    (player : Player) (e1 e2 : error) (s : Server) :
  FindPlayerByConnection client s = Returns (Ok player) s ->
  FindLobbyByID (join_ID packet) s = Returns (Err e1) s ->
  FindLobbyByName (join_Name packet) s = Returns (Err e2) s ->
  HandleJoinLobbyRequest client packet s
    = Returns (Some (errors_New "no such lobby found")) s
  ∧ Earlier.HandleJoinLobbyRequest client packet s
    = Returns (Some (errors_New "no lobby found")) s.
Proof.
  intros Hfind Hid Hname. split.
  - unfold HandleJoinLobbyRequest, func, bind.
    lookup_in_frame Hfind. lookup_in_frame Hid. lookup_in_frame Hname.
    cbn. f_equal. apply func_frame_unchanged.
  - unfold Earlier.HandleJoinLobbyRequest, bind.
    rewrite Hfind, Hid, Hname. reflexivity.
Qed.

Lemma join_no_lobby_witness :
  let packet := {| join_Type := PacketTypeJoinLobbyRequest; join_ID := 0;
                   join_Name := "Bar" |} in
  @HandleJoinLobbyRequest quiet 13 packet lobby_server
    = Returns (Some (errors_New "no such lobby found")) lobby_server
  ∧ @Earlier.HandleJoinLobbyRequest quiet 13 packet lobby_server
    = Returns (Some (errors_New "no lobby found")) lobby_server.
Proof.
  apply (@join_no_lobby quiet 13 _ carol (lookup_failed ByLobbyID)
           (lookup_failed ByLobbyName) lobby_server); reflexivity.
Defined.

(** *** Kicking *)

Lemma FindPlayerByID_ID (id : string) (p : Player) (s : Server) :
  FindPlayerByID id s = Returns (Ok p) s -> ID p = id.
Proof.
  unfold FindPlayerByID, gets. intros [= Hr].
  destruct (list_find (fun p => ID p = id) (Clients s)) as [[i q]|] eqn:Hf; [|discriminate Hr].
  injection Hr as ->. apply list_find_Some in Hf. tauto.
Qed.

Lemma filter_absent (p : Player) (l : list Player) :
  existsb (same_player p) l = false ->
  filter (fun q => same_player p q = false) l = l.
Proof.
  induction l as [|q l IH]; [reflexivity|].
  intros Hex. cbn in Hex. apply orb_false_iff in Hex as [Hq Hl].
  rewrite filter_cons_True by exact Hq. rewrite (IH Hl). reflexivity.
Qed.

Lemma remove_member_absent (p : Player) (l : Lobby) :
  member p l = false -> remove_member p l = l.
Proof.
  unfold member, remove_member. intros Hm. rewrite (filter_absent _ _ Hm).
  destruct l; reflexivity.
Qed.

Lemma alter_fixed {A} (f : A -> A) (i : nat) (x : A) (l : list A) :
  l !! i = Some x -> f x = x -> alter f i l = l.
Proof.
  intros Hi Hx. apply list_eq. intros j. rewrite list_lookup_alter.
  destruct (decide (i = j)) as [<-|]; [|reflexivity].
  rewrite Hi. cbn. rewrite Hx. reflexivity.
Qed.

(** The run of [HandleLobbyKickRequest] once requester, target and the
    requester's lobby are resolved and the requester is the host. *)
Lemma kick_by_host `{Environment} (client : Conn) (packet : LobbyKickRequestPacket)
    (player targetPlayer : Player) (lobby : LobbyPtr) (l : Lobby) (s : Server) :
  FindPlayerByConnection client s = Returns (Ok player) s ->
  FindPlayerByID (Target packet) s = Returns (Ok targetPlayer) s ->
  FindLobbyByPlayer player s = Returns (Ok lobby) s ->
  Lobbies s !! lobby = Some l ->
  same_player (host l) player = true ->
  HandleLobbyKickRequest client packet s
    = Returns None
        (set_written
           (written s ++ [(Client player, LobbyKickResponse (ID targetPlayer) true);
                          (Client targetPlayer, LobbyKickResponse (ID targetPlayer) true)])
           (set_Lobbies (alter (remove_member targetPlayer) lobby (Lobbies s)) s)).
Proof.
  intros Hfind Htarget Hlobby Hl Hhost.
  unfold HandleLobbyKickRequest, bind. rewrite Hfind, Htarget, Hlobby.
  unfold deref at 1. rewrite Hl, Hhost. cbn.
  unfold Lobby_RemovePlayer, bind, deref. rewrite Hl. cbn.
  rewrite <- app_assoc. reflexivity.
Qed.

(** C3, as the code has it.  For a kick request from a logged-in player:
    when the target ID resolves to no registered player, the handler returns
    the lookup error of [FindPlayerByID] and the server is exactly as it was,
    so nothing is logged and the lobby was not looked at.  With the target
    and the requester's lobby resolved: a requester who is not the lobby's
    host gets the error "insufficient privileges; must be lobby host to kick
    users", the attempt is logged and nothing else changes, so every member
    set is as before; a requester who is the host gets no error, the lobby's
    members are afterwards exactly the former members other than the target
    (every other lobby is untouched), and [LobbyKickResponse (targetID, true)]
    is written to the requester and then to the target. *)
Theorem kick_request `{Environment} (client : Conn) (packet : LobbyKickRequestPacket)
    (player : Player) (s : Server) :
  FindPlayerByConnection client s = Returns (Ok player) s ->
  (∀ e, FindPlayerByID (Target packet) s = Returns (Err e) s ->
     HandleLobbyKickRequest client packet s = Returns (Some e) s)
  ∧ (∀ (targetPlayer : Player) (lobby : LobbyPtr) (l : Lobby),
       FindPlayerByID (Target packet) s = Returns (Ok targetPlayer) s ->
       FindLobbyByPlayer player s = Returns (Ok lobby) s ->
       Lobbies s !! lobby = Some l ->
       (same_player (host l) player = false ->
          HandleLobbyKickRequest client packet s
          = Returns
              (Some (errors_New "insufficient privileges; must be lobby host to kick users"))
              (set_logged (logged s ++ [LogKickDenied (Name player) (Name targetPlayer)]) s))
       ∧ (same_player (host l) player = true ->
          ∃ s' l', HandleLobbyKickRequest client packet s = Returns None s'
              ∧ written s'
                = written s ++ [(Client player, LobbyKickResponse (Target packet) true);
                                (Client targetPlayer, LobbyKickResponse (Target packet) true)]
              ∧ Lobbies s' !! lobby = Some l'
              ∧ players l' = filter (fun q => same_player targetPlayer q = false) (players l)
              ∧ (∀ q, q ∈ players l' -> same_player targetPlayer q = false)
              ∧ (∀ q, q ∈ players l -> same_player targetPlayer q = false -> q ∈ players l')
              ∧ name l' = name l ∧ lobby_id l' = lobby_id l ∧ host l' = host l
              ∧ (∀ i, i ≠ lobby -> Lobbies s' !! i = Lobbies s !! i)
              ∧ Clients s' = Clients s
              ∧ logged s' = logged s)).
Proof.
  intros Hfind. split.
  - intros e Htarget. unfold HandleLobbyKickRequest, bind. rewrite Hfind, Htarget.
    reflexivity.
  - intros targetPlayer lobby l Htarget Hlobby Hl. split; intros Hhost.
    + unfold HandleLobbyKickRequest, bind. rewrite Hfind, Htarget, Hlobby.
      unfold deref. rewrite Hl, Hhost. reflexivity.
    + eexists. exists (remove_member targetPlayer l).
      split; [exact (kick_by_host _ _ _ _ _ _ _ Hfind Htarget Hlobby Hl Hhost)|].
      split; [cbn; rewrite (FindPlayerByID_ID _ _ _ Htarget); reflexivity|].
      split.
      { unfold set_written, set_Lobbies. cbn [Lobbies].
        rewrite list_lookup_alter_eq, Hl. reflexivity. }
      split; [reflexivity|]. split.
      { intros q Hq. exact (not_same_after_filter _ _ _ Hq). }
      split.
      { intros q Hq Hother. cbn [players remove_member].
        apply list_elem_of_filter. split; [exact Hother | exact Hq]. }
      split; [reflexivity|]. split; [reflexivity|]. split; [reflexivity|]. split.
      { intros i Hi. unfold set_written, set_Lobbies. cbn [Lobbies].
        apply list_lookup_alter_ne. intros Heq. apply Hi. symmetry. exact Heq. }
      split; reflexivity.
Qed.

Lemma kick_request_witness :
  @HandleLobbyKickRequest quiet 12
    {| kick_Type := PacketTypeLobbyKickRequest; Target := "alice" |} lobby_server
  = Returns (Some (errors_New "insufficient privileges; must be lobby host to kick users"))
      (set_logged [LogKickDenied "Bob" "Alice"] lobby_server)
  ∧ (∃ s' l', @HandleLobbyKickRequest quiet 11
                {| kick_Type := PacketTypeLobbyKickRequest; Target := "bob" |} lobby_server
              = Returns None s'
         ∧ written s' = [(11, LobbyKickResponse "bob" true);
                         (12, LobbyKickResponse "bob" true)]
         ∧ Lobbies s' !! 0%nat = Some l'
         ∧ players l' = [alice]
         ∧ Clients s' = [alice; bob; carol]
         ∧ logged s' = [])
  ∧ @HandleLobbyKickRequest quiet 12
      {| kick_Type := PacketTypeLobbyKickRequest; Target := "ghost" |} lobby_server
    = Returns (Some (lookup_failed ByPlayerID)) lobby_server.
Proof.
  split; [|split].
  - apply (proj1 (proj2 (@kick_request quiet 12
                           {| kick_Type := PacketTypeLobbyKickRequest; Target := "alice" |}
                           bob lobby_server eq_refl)
                    alice 0 foo eq_refl eq_refl eq_refl)).
    reflexivity.
  - destruct (proj2 (proj2 (@kick_request quiet 11
                              {| kick_Type := PacketTypeLobbyKickRequest; Target := "bob" |}
                              alice lobby_server eq_refl)
                       bob 0 foo eq_refl eq_refl eq_refl) eq_refl)
      as (s' & l' & Hrun & Hwritten & Hl' & Hplayers & _ & _ & _ & _ & _ & _ & Hclients
          & Hlogged).
    exists s', l'. split; [exact Hrun|]. split; [exact Hwritten|]. split; [exact Hl'|].
    split; [exact Hplayers|]. split; [exact Hclients | exact Hlogged].
  - apply (proj1 (@kick_request quiet 12
                    {| kick_Type := PacketTypeLobbyKickRequest; Target := "ghost" |}
                    bob lobby_server eq_refl) (lookup_failed ByPlayerID)).
    reflexivity.
Defined.

(** Bob is in lobby Foo and not its host; he asks to kick "ghost", an ID no
    registered player has.  The handler returns the lookup error of
    [FindPlayerByID] before it looks at the lobby: it is not the
    authorization error, and nothing is logged. *)
Lemma kick_unknown_target :
  let packet := {| kick_Type := PacketTypeLobbyKickRequest; Target := "ghost" |} in
  FindPlayerByConnection 12 lobby_server = Returns (Ok bob) lobby_server
  ∧ FindLobbyByPlayer bob lobby_server = Returns (Ok 0) lobby_server
  ∧ Lobbies lobby_server !! 0 = Some foo
  ∧ same_player (host foo) bob = false
  ∧ @HandleLobbyKickRequest quiet 12 packet lobby_server
    = Returns (Some (lookup_failed ByPlayerID)) lobby_server
  ∧ logged lobby_server = [].
Proof. cbn zeta. repeat split. Qed.

(** C10.  Once requester and target are resolved and the requester is the
    host of the lobby it belongs to, [HandleLobbyKickRequest] returns no error
    and writes [LobbyKickResponse (targetID, true)] to the requester and to
    the target, whether or not the target is a member of that lobby: when it
    is not, the removal changes no member set. *)
Theorem kick_ignores_membership `{Environment} (client : Conn)
    (packet : LobbyKickRequestPacket) (player targetPlayer : Player) (lobby : LobbyPtr)
    (l : Lobby) (s : Server) :
  FindPlayerByConnection client s = Returns (Ok player) s ->
  FindPlayerByID (Target packet) s = Returns (Ok targetPlayer) s ->
  FindLobbyByPlayer player s = Returns (Ok lobby) s ->
  Lobbies s !! lobby = Some l ->
  same_player (host l) player = true ->
  ∃ s', HandleLobbyKickRequest client packet s = Returns None s'
      ∧ written s'
        = written s ++ [(Client player, LobbyKickResponse (Target packet) true);
                        (Client targetPlayer, LobbyKickResponse (Target packet) true)]
      ∧ (member targetPlayer l = false -> Lobbies s' = Lobbies s).
Proof.
  intros Hfind Htarget Hlobby Hl Hhost.
  eexists. split; [exact (kick_by_host _ _ _ _ _ _ _ Hfind Htarget Hlobby Hl Hhost)|].
  split; [cbn; rewrite (FindPlayerByID_ID _ _ _ Htarget); reflexivity|].
  intros Hm. unfold set_written, set_Lobbies. cbn [Lobbies].
  exact (alter_fixed _ _ _ _ Hl (remove_member_absent _ _ Hm)).
Qed.

Lemma kick_ignores_membership_witness :
  ∃ s', @HandleLobbyKickRequest quiet 11
          {| kick_Type := PacketTypeLobbyKickRequest; Target := "carol" |} lobby_server
          = Returns None s'
      ∧ written s' = [(11, LobbyKickResponse "carol" true);
                      (13, LobbyKickResponse "carol" true)]
      ∧ Lobbies s' = [foo].
Proof.
  destruct (@kick_ignores_membership quiet 11
              {| kick_Type := PacketTypeLobbyKickRequest; Target := "carol" |}
              alice carol 0 foo lobby_server eq_refl eq_refl eq_refl eq_refl eq_refl)
    as (s' & Hrun & Hwritten & Hsame).
  exists s'. split; [exact Hrun|]. split; [exact Hwritten|]. apply Hsame. reflexivity.
Defined.

(** *** Joining a lobby *)

Lemma bind_returns {A B} (m : Go A) (k : A -> Go B) (s s' : Server) (a : A) :
  m s = Returns a s' -> bind m k s = k a s'.
Proof. unfold bind. intros ->. reflexivity. Qed.

(** Releasing every mutex that was deferred leaves none of them held. *)
Lemma release_all (d h : list nat) :
  (∀ b, b ∈ h -> b ∈ d) -> foldl (fun h a => release a h) h d = [].
Proof.
  revert h. induction d as [|a d IH]; intros h Hsub; cbn.
  - destruct h as [|b h]; [reflexivity|].
    exfalso. exact (not_elem_of_nil b (Hsub b (list_elem_of_here b h))).
  - apply IH. intros b Hb. unfold release in Hb.
    apply list_elem_of_filter in Hb as [Hne Hb].
    apply Hsub in Hb. apply elem_of_cons in Hb as [->|Hb]; [destruct (Hne eq_refl)|exact Hb].
Qed.

Lemma release_absent (a : nat) (h : list nat) : a ∉ h -> release a h = h.
Proof.
  intros Ha. unfold release. induction h as [|b h IH]; [reflexivity|].
  apply not_elem_of_cons in Ha as [Hne Ha].
  rewrite filter_cons_True by (intros Heq; apply Hne; symmetry; exact Heq).
  rewrite (IH Ha). reflexivity.
Qed.

Lemma release_here (a : nat) (h : list nat) : a ∉ h -> release a (a :: h) = h.
Proof.
  intros Ha. unfold release. rewrite filter_cons_False by (intros Hne; apply Hne; reflexivity).
  exact (release_absent a h Ha).
Qed.

Lemma filter_all {A} (P : A -> Prop) `{∀ x, Decision (P x)} (l : list A) :
  (∀ x, x ∈ l -> P x) -> filter P l = l.
Proof.
  induction l as [|x l IH]; intros Hall; [reflexivity|].
  rewrite filter_cons_True by (apply Hall; left).
  rewrite IH; [reflexivity|]. intros y Hy. apply Hall. right. exact Hy.
Qed.

Lemma filter_none {A} (P : A -> Prop) `{∀ x, Decision (P x)} (l : list A) :
  (∀ x, x ∈ l -> ¬ P x) -> filter P l = [].
Proof.
  induction l as [|x l IH]; intros Hall; [reflexivity|].
  rewrite filter_cons_False by (apply Hall; left).
  apply IH. intros y Hy. apply Hall. right. exact Hy.
Qed.

(** The deferred unlocks of a loop give back exactly the mutexes the loop
    took: those held before it are still held, and no other. *)
Lemma release_deferred (d h : list nat) :
  (∀ b, b ∈ d -> b ∉ h) -> foldl (fun h a => release a h) (d ++ h) d = h.
Proof.
  assert (∀ (d h0 : list nat),
            foldl (fun h a => release a h) h0 d = filter (fun b => b ∉ d) h0) as Hfold.
  { clear. induction d as [|a d IH]; intros h0; cbn [foldl].
    - symmetry. apply filter_all. intros b _. apply not_elem_of_nil.
    - rewrite IH. unfold release. rewrite list_filter_filter. apply list_filter_iff.
      intros b. rewrite not_elem_of_cons. tauto. }
  intros Hsep. rewrite Hfold. rewrite filter_app.
  rewrite (filter_none _ d) by (intros b Hb Hnot; exact (Hnot Hb)).
  cbn. apply filter_all. intros b Hb Hd. exact (Hsep b Hd Hb).
Qed.

Lemma member_iff (p : Player) (l : Lobby) :
  member p l = true ↔ addr p ∈ addr <$> players l.
Proof.
  unfold member. rewrite existsb_exists. split.
  - intros (q & Hq & Hsame). apply Nat.eqb_eq in Hsame. rewrite Hsame.
    apply list_elem_of_fmap_2, list_elem_of_In, Hq.
  - intros Hin. apply list_elem_of_fmap in Hin as (q & Haddr & Hq).
    exists q. split; [apply list_elem_of_In, Hq|]. apply Nat.eqb_eq, Haddr.
Qed.

(** The joiner is a member afterwards, and a member set stays a set. *)
Lemma add_member_member (p : Player) (l : Lobby) : member p (add_member p l) = true.
Proof.
  unfold add_member. destruct (existsb (same_player p) (players l)) eqn:Hex; [exact Hex|].
  unfold member. cbn. rewrite existsb_app. cbn. unfold same_player at 2.
  rewrite Nat.eqb_refl. rewrite orb_true_r. reflexivity.
Qed.

Lemma add_member_NoDup (p : Player) (l : Lobby) :
  NoDup (addr <$> players l) -> NoDup (addr <$> players (add_member p l)).
Proof.
  intros Hnd. unfold add_member.
  destruct (existsb (same_player p) (players l)) eqn:Hex; [exact Hnd|].
  cbn. rewrite fmap_app. apply NoDup_app. split; [exact Hnd|]. split.
  - intros a Ha Hp. cbn in Hp. apply list_elem_of_singleton in Hp as ->.
    apply member_iff in Ha. unfold member in Ha. rewrite Ha in Hex. discriminate Hex.
  - cbn. apply NoDup_singleton.
Qed.

Section Broadcast.
Context `{Environment}.
Variable notice : Player -> Response.

(** A loop that locks each player, defers the unlock and writes the player a
    packet: run over players with distinct addresses, none of whose mutexes
    is held, it writes one packet per player, in order, and ends holding all
    their mutexes. *)
Lemma range_locked (ps : list Player) (s : Server) :
  NoDup (addr <$> ps) ->
  (∀ p, p ∈ ps -> addr p ∉ held s) ->
  range ps (fun p => Lock p ;; defer_Unlock p ;; transmit (Client p) (notice p) ;; ret tt) s
  = Returns tt
      (set_written (written s ++ ((fun p => (Client p, notice p)) <$> ps))
         (set_deferred (rev (addr <$> ps) ++ deferred s)
            (set_held (rev (addr <$> ps) ++ held s) s))).
Proof.
  revert s. induction ps as [|p ps IH]; intros s Hnd Hfree.
  - cbn. unfold ret. f_equal. rewrite app_nil_r. destruct s; reflexivity.
  - cbn [fmap list_fmap] in Hnd. apply NoDup_cons in Hnd as [Hp Hnd].
    cbn [range]. unfold bind at 1. unfold bind at 1. unfold Lock.
    rewrite bool_decide_false by (apply Hfree; left).
    unfold bind at 1. cbn [defer_Unlock modify]. unfold bind at 1.
    unfold transmit at 1. unfold ret at 1.
    rewrite IH; [| exact Hnd |].
    + f_equal. unfold set_written, set_deferred, set_held. cbn.
      rewrite <- !app_assoc. reflexivity.
    + intros q Hq. cbn. intros Hin. apply elem_of_cons in Hin as [Heq|Hin].
      * apply Hp. rewrite <- Heq. apply list_elem_of_fmap_2, Hq.
      * apply (Hfree q); [right; exact Hq|exact Hin].
Qed.

End Broadcast.

Lemma add_member_name (p : Player) (l : Lobby) :
  name (add_member p l) = name l ∧ lobby_id (add_member p l) = lobby_id l
  ∧ host (add_member p l) = host l.
Proof. unfold add_member. destruct (existsb (same_player p) (players l)); auto. Qed.

(** What both branches of [HandleJoinLobbyRequest] do with the lobby they
    found: add the player, then tell every member, under each member's
    mutex. *)
Lemma join_found `{Environment} (player : Player) (lobby : LobbyPtr) (l : Lobby)
    (s : Server) :
  Lobbies s !! lobby = Some l ->
  NoDup (addr <$> players l) ->
  (∀ p, p ∈ players (add_member player l) -> addr p ∉ held s) ->
  (Lobby_AddPlayer lobby player ;;
   l <- deref lobby ;;
   range (players l) (fun p =>
     Lock p ;;
     defer_Unlock p ;;
     SendJoinLobbyResponse p (name l) (lobby_id l) true ;;
     ret tt) ;;
   ret None) s
  = Returns (@None error)
      (set_written
         (written s ++ ((fun p => (Client p, JoinLobbyResponse (name l) (lobby_id l) true))
                          <$> players (add_member player l)))
         (set_deferred (rev (addr <$> players (add_member player l)) ++ deferred s)
            (set_held (rev (addr <$> players (add_member player l)) ++ held s)
               (set_Lobbies (alter (add_member player) lobby (Lobbies s)) s)))).
Proof.
  intros Hl Hnd Hfree.
  assert (Lobby_AddPlayer lobby player s
          = Returns tt (set_Lobbies (alter (add_member player) lobby (Lobbies s)) s)) as Hadd.
  { unfold Lobby_AddPlayer, bind, deref. rewrite Hl. reflexivity. }
  rewrite (bind_returns _ _ _ _ _ Hadd).
  assert (deref lobby (set_Lobbies (alter (add_member player) lobby (Lobbies s)) s)
          = Returns (add_member player l)
              (set_Lobbies (alter (add_member player) lobby (Lobbies s)) s)) as Hderef.
  { unfold deref, set_Lobbies. cbn [Lobbies]. rewrite list_lookup_alter_eq, Hl. reflexivity. }
  rewrite (bind_returns _ _ _ _ _ Hderef).
  destruct (add_member_name player l) as (Hname & Hid & _). rewrite Hname, Hid.
  unfold SendJoinLobbyResponse.
  assert (∀ p, p ∈ players (add_member player l) ->
            addr p ∉ held (set_Lobbies (alter (add_member player) lobby (Lobbies s)) s))
    as Hfree' by exact Hfree.
  rewrite (bind_returns _ _ _ _ _
             (range_locked (fun _ => JoinLobbyResponse (name l) (lobby_id l) true) _ _
                (add_member_NoDup player l Hnd) Hfree')).
  reflexivity.
Qed.

(** The earlier copy answers the joiner alone. *)
Lemma earlier_join_answers_joiner `{Environment} (client : Conn)
    (packet : JoinLobbyRequestPacket) (player : Player) (lobby : LobbyPtr) (l : Lobby)
    (s : Server) :
  FindPlayerByConnection client s = Returns (Ok player) s ->
  FindLobbyByID (join_ID packet) s = Returns (Ok lobby) s ->
  Lobbies s !! lobby = Some l ->
  Earlier.HandleJoinLobbyRequest client packet s
  = Returns None
      (set_written (written s ++ [(Client player, JoinLobbyResponse (name l) (lobby_id l) true)])
         (set_Lobbies (alter (add_member player) lobby (Lobbies s)) s)).
Proof.
  intros Hfind Hid Hl. unfold Earlier.HandleJoinLobbyRequest.
  rewrite (bind_returns _ _ _ _ _ Hfind). cbv beta iota.
  rewrite (bind_returns _ _ _ _ _ Hid). cbv beta iota.
  unfold Lobby_AddPlayer, bind, deref. rewrite Hl. cbn [Lobbies set_Lobbies modify].
  rewrite list_lookup_alter_eq, Hl. cbn.
  destruct (add_member_name player l) as (-> & -> & _). reflexivity.
Qed.

Lemma earlier_join_by_name `{Environment} (client : Conn)
    (packet : JoinLobbyRequestPacket) (player : Player) (lobby : LobbyPtr) (l : Lobby)
    (e : error) (s : Server) :
  FindPlayerByConnection client s = Returns (Ok player) s ->
  FindLobbyByID (join_ID packet) s = Returns (Err e) s ->
  FindLobbyByName (join_Name packet) s = Returns (Ok lobby) s ->
  Lobbies s !! lobby = Some l ->
  Earlier.HandleJoinLobbyRequest client packet s
  = Returns None
      (set_written (written s ++ [(Client player, JoinLobbyResponse (name l) (lobby_id l) true)])
         (set_Lobbies (alter (add_member player) lobby (Lobbies s)) s)).
Proof.
  intros Hfind Hid Hname Hl. unfold Earlier.HandleJoinLobbyRequest.
  rewrite (bind_returns _ _ _ _ _ Hfind). cbv beta iota.
  rewrite (bind_returns _ _ _ _ _ Hid). cbv beta iota.
  rewrite (bind_returns _ _ _ _ _ Hname). cbv beta iota.
  unfold Lobby_AddPlayer, bind, deref. rewrite Hl. cbn [Lobbies set_Lobbies modify].
  rewrite list_lookup_alter_eq, Hl. cbn.
  destruct (add_member_name player l) as (-> & -> & _). reflexivity.
Qed.

(** C4, as the code has it.  For a join request from a logged-in player,
    both copies take the lobby [FindLobbyByID] finds, and the one
    [FindLobbyByName] finds only when [FindLobbyByID] has failed, and add the
    requester to its members.  The current copy then writes
    [JoinLobbyResponse (lobbyName, lobbyID, true)] to every member of the
    lobby as it is after the join, the joiner included, one packet each, in
    member order; it does so under each member's mutex, so this holds when
    the members are distinct and none of their mutexes is held, and the
    mutexes are then as they were.  The earlier copy writes the response to
    the joiner alone. *)
Theorem join_by_id_then_name `{Environment} (client : Conn)
    (packet : JoinLobbyRequestPacket) (player : Player) (lobby : LobbyPtr) (l : Lobby)
    (s : Server) :
  FindPlayerByConnection client s = Returns (Ok player) s ->
  FindLobbyByID (join_ID packet) s = Returns (Ok lobby) s
  ∨ ((∃ e, FindLobbyByID (join_ID packet) s = Returns (Err e) s)
     ∧ FindLobbyByName (join_Name packet) s = Returns (Ok lobby) s) ->
  Lobbies s !! lobby = Some l ->
  (NoDup (addr <$> players l) ->
   (∀ p, p ∈ players (add_member player l) -> addr p ∉ held s) ->
   ∃ s', HandleJoinLobbyRequest client packet s = Returns None s'
       ∧ Lobbies s' = alter (add_member player) lobby (Lobbies s)
       ∧ Lobbies s' !! lobby = Some (add_member player l)
       ∧ member player (add_member player l) = true
       ∧ written s'
         = written s ++ ((fun p => (Client p, JoinLobbyResponse (name l) (lobby_id l) true))
                           <$> players (add_member player l))
       ∧ Clients s' = Clients s
       ∧ held s' = held s)
  ∧ (∃ s', Earlier.HandleJoinLobbyRequest client packet s = Returns None s'
         ∧ Lobbies s' = alter (add_member player) lobby (Lobbies s)
         ∧ Lobbies s' !! lobby = Some (add_member player l)
         ∧ member player (add_member player l) = true
         ∧ written s'
           = written s ++ [(Client player, JoinLobbyResponse (name l) (lobby_id l) true)]
         ∧ Clients s' = Clients s
         ∧ held s' = held s).
Proof.
  intros Hfind Hwhich Hl. split.
  - intros Hnd Hfree.
    assert (HandleJoinLobbyRequest client packet s
            = Returns None
                (set_written
                   (written s
                    ++ ((fun p => (Client p, JoinLobbyResponse (name l) (lobby_id l) true))
                          <$> players (add_member player l)))
                   (set_Lobbies (alter (add_member player) lobby (Lobbies s)) s))) as Hrun.
    { assert (∀ b, b ∈ rev (addr <$> players (add_member player l)) -> b ∉ held s) as Hsep.
      { intros b Hb. apply list_elem_of_In, in_rev, list_elem_of_In in Hb.
        apply list_elem_of_fmap in Hb as (p & -> & Hp). exact (Hfree p Hp). }
      unfold HandleJoinLobbyRequest, func.
      rewrite (bind_returns _ _ _ _ _ (gets_frame _ s (set_deferred [] s) _ Hfind eq_refl)).
      cbv beta iota.
      destruct Hwhich as [Hid | [[e Hid] Hname]].
      - rewrite (bind_returns _ _ _ _ _ (gets_frame _ s (set_deferred [] s) _ Hid eq_refl)).
        cbv beta iota.
        rewrite (join_found player lobby l (set_deferred [] s) Hl Hnd Hfree).
        f_equal. cbn -[release add_member]. rewrite app_nil_r.
        rewrite (release_deferred _ _ Hsep). destruct s; reflexivity.
      - rewrite (bind_returns _ _ _ _ _ (gets_frame _ s (set_deferred [] s) _ Hid eq_refl)).
        cbv beta iota.
        rewrite (bind_returns _ _ _ _ _ (gets_frame _ s (set_deferred [] s) _ Hname eq_refl)).
        cbv beta iota.
        rewrite (join_found player lobby l (set_deferred [] s) Hl Hnd Hfree).
        f_equal. cbn -[release add_member]. rewrite app_nil_r.
        rewrite (release_deferred _ _ Hsep). destruct s; reflexivity. }
    eexists. split; [exact Hrun|]. cbn.
    split; [reflexivity|]. split.
    + rewrite list_lookup_alter_eq, Hl. reflexivity.
    + split; [apply add_member_member|]. auto.
  - assert (Earlier.HandleJoinLobbyRequest client packet s
            = Returns None
                (set_written
                   (written s
                    ++ [(Client player, JoinLobbyResponse (name l) (lobby_id l) true)])
                   (set_Lobbies (alter (add_member player) lobby (Lobbies s)) s))) as Hrun.
    { destruct Hwhich as [Hid | [[e Hid] Hname]].
      - exact (earlier_join_answers_joiner client packet player lobby l s Hfind Hid Hl).
      - exact (earlier_join_by_name client packet player lobby l e s Hfind Hid Hname Hl). }
    eexists. split; [exact Hrun|]. cbn.
    split; [reflexivity|]. split.
    + rewrite list_lookup_alter_eq, Hl. reflexivity.
    + split; [apply add_member_member|]. auto.
Qed.

Lemma join_by_id_then_name_witness :
  (∃ s', @HandleJoinLobbyRequest quiet 13
           {| join_Type := PacketTypeJoinLobbyRequest; join_ID := 7; join_Name := "" |}
           (set_held [9] lobby_server) = Returns None s'
       ∧ Lobbies s' = [mkLobby 7 "Foo" alice [alice; bob; carol]]
       ∧ written s' = [(11, JoinLobbyResponse "Foo" 7 true);
                       (12, JoinLobbyResponse "Foo" 7 true);
                       (13, JoinLobbyResponse "Foo" 7 true)]
       ∧ held s' = [9])
  ∧ (∃ s', @HandleJoinLobbyRequest quiet 13
             {| join_Type := PacketTypeJoinLobbyRequest; join_ID := 0; join_Name := "Foo" |}
             lobby_server = Returns None s'
         ∧ Lobbies s' = [mkLobby 7 "Foo" alice [alice; bob; carol]]
         ∧ written s' = [(11, JoinLobbyResponse "Foo" 7 true);
                         (12, JoinLobbyResponse "Foo" 7 true);
                         (13, JoinLobbyResponse "Foo" 7 true)])
  ∧ (∃ s', @Earlier.HandleJoinLobbyRequest quiet 13
             {| join_Type := PacketTypeJoinLobbyRequest; join_ID := 7; join_Name := "" |}
             lobby_server = Returns None s'
         ∧ Lobbies s' = [mkLobby 7 "Foo" alice [alice; bob; carol]]
         ∧ written s' = [(13, JoinLobbyResponse "Foo" 7 true)]).
Proof.
  assert (NoDup (addr <$> players foo)) as Hnd.
  { cbn. apply NoDup_cons. split; [rewrite elem_of_cons, elem_of_nil; lia|].
    apply NoDup_singleton. }
  assert (∀ p, p ∈ players (add_member carol foo) -> addr p ∉ held (set_held [9] lobby_server))
    as Hfree9.
  { intros p Hp. cbn in Hp.
    repeat (apply elem_of_cons in Hp as [->|Hp]);
      [cbn; rewrite elem_of_cons, elem_of_nil; lia ..|].
    apply elem_of_nil in Hp. destruct Hp. }
  assert (∀ p, p ∈ players (add_member carol foo) -> addr p ∉ held lobby_server) as Hfree
    by (intros p _; cbn; apply not_elem_of_nil).
  split; [|split].
  - destruct (proj1 (@join_by_id_then_name quiet 13
                       {| join_Type := PacketTypeJoinLobbyRequest; join_ID := 7;
                          join_Name := "" |}
                       carol 0 foo (set_held [9] lobby_server) eq_refl (or_introl eq_refl)
                       eq_refl) Hnd Hfree9)
      as (s' & Hrun & Hlobbies & _ & _ & Hwritten & _ & Hheld).
    exists s'. split; [exact Hrun|]. split; [exact Hlobbies|].
    split; [exact Hwritten | exact Hheld].
  - destruct (proj1 (@join_by_id_then_name quiet 13
                       {| join_Type := PacketTypeJoinLobbyRequest; join_ID := 0;
                          join_Name := "Foo" |}
                       carol 0 foo lobby_server eq_refl
                       (or_intror (conj (ex_intro _ (lookup_failed ByLobbyID) eq_refl) eq_refl))
                       eq_refl) Hnd Hfree)
      as (s' & Hrun & Hlobbies & _ & _ & Hwritten & _).
    exists s'. split; [exact Hrun|]. split; [exact Hlobbies | exact Hwritten].
  - destruct (proj2 (@join_by_id_then_name quiet 13
                       {| join_Type := PacketTypeJoinLobbyRequest; join_ID := 7;
                          join_Name := "" |}
                       carol 0 foo lobby_server eq_refl (or_introl eq_refl) eq_refl))
      as (s' & Hrun & Hlobbies & _ & _ & Hwritten & _).
    exists s'. split; [exact Hrun|]. split; [exact Hlobbies | exact Hwritten].
Defined.

(** In the earlier copy Carol's join of lobby Foo is answered to Carol alone:
    Alice and Bob are members of the lobby afterwards, as they were before,
    and nothing is written to their connections. *)
Lemma earlier_join_skips_members :
  let packet := {| join_Type := PacketTypeJoinLobbyRequest; join_ID := 7; join_Name := "" |} in
  FindPlayerByConnection 13 lobby_server = Returns (Ok carol) lobby_server
  ∧ FindLobbyByID 7 lobby_server = Returns (Ok 0) lobby_server
  ∧ ∃ s', @Earlier.HandleJoinLobbyRequest quiet 13 packet lobby_server = Returns None s'
        ∧ Lobbies s' = [mkLobby 7 "Foo" alice [alice; bob; carol]]
        ∧ written lobby_server = []
        ∧ written s' = [(13, JoinLobbyResponse "Foo" 7 true)].
Proof.
  cbn zeta. split; [reflexivity|]. split; [reflexivity|].
  eexists. split; [vm_compute; reflexivity|]. repeat split.
Qed.

(** Why the member set must be a set: with Bob listed twice in a lobby, the
    second [p.Lock()] of the loop waits for the mutex the first one took. *)
Example join_blocks_on_repeated_member :
  ∃ s', @HandleJoinLobbyRequest quiet 13
          {| join_Type := PacketTypeJoinLobbyRequest; join_ID := 7; join_Name := "" |}
          (mkServer [alice; bob; carol] [mkLobby 7 "Foo" alice [bob; bob]] false 4 8
             [] [] [] [] [])
        = Blocks s'.
Proof. eexists. vm_compute. reflexivity. Qed.

(** Why the members' mutexes must be free: with Bob's mutex held when the
    request arrives, the loop waits at Bob's [p.Lock()], after Carol has been
    added and Alice has been told. *)
Example join_waits_for_held_mutex :
  ∃ s', @HandleJoinLobbyRequest quiet 13
          {| join_Type := PacketTypeJoinLobbyRequest; join_ID := 7; join_Name := "" |}
          (set_held [2] lobby_server)
        = Blocks s'
      ∧ Lobbies s' = [mkLobby 7 "Foo" alice [alice; bob; carol]]
      ∧ written s' = [(11, JoinLobbyResponse "Foo" 7 true)].
Proof. eexists. split; [vm_compute; reflexivity|]. split; reflexivity. Qed.

(** *** Requests from a connection that is not logged in *)

(** X1.  Every handler that starts by resolving the connection returns the
    lookup's error when the connection has no player, and has then written
    nothing, closed nothing and changed no registry; only the create-lobby and
    player-list handlers log the failure, and only when [Debug] is set. *)
Theorem not_logged_in `{Environment} (client : Conn) (e : error) (s : Server) :
  FindPlayerByConnection client s = Returns (Err e) s ->
  (∀ packet, HandleExitRequest client packet s = Returns (Some e) s)
  ∧ (∀ packet, HandleGlobalChatRequest client packet s = Returns (Some e) s)
  ∧ (∀ packet, HandleLobbyListRequest client packet s = Returns (Some e) s)
  ∧ (∀ packet, HandleJoinLobbyRequest client packet s = Returns (Some e) s)
  ∧ (∀ packet, HandleLeaveLobbyRequest client packet s = Returns (Some e) s)
  ∧ (∀ packet, HandleLobbyKickRequest client packet s = Returns (Some e) s)
  ∧ (∀ packet, HandleCreateLobbyRequest client packet s
       = Returns (Some e)
           (if Debug s then set_logged (logged s ++ [LogCreateLobbyError e]) s else s))
  ∧ (∀ packet, HandlePlayerListRequest client packet s
       = Returns (Some e)
           (if Debug s then set_logged (logged s ++ [LogPlayerListError e]) s else s)).
Proof.
  intros Hfind.
  pose proof (gets_frame _ s (set_deferred [] s) _ Hfind eq_refl) as Hq.
  repeat split; intros packet.
  - unfold HandleExitRequest. rewrite (bind_returns _ _ _ _ _ Hfind). reflexivity.
  - unfold HandleGlobalChatRequest, func. rewrite (bind_returns _ _ _ _ _ Hq).
    cbn. f_equal. apply func_frame_unchanged.
  - unfold HandleLobbyListRequest. rewrite (bind_returns _ _ _ _ _ Hfind). reflexivity.
  - unfold HandleJoinLobbyRequest, func. rewrite (bind_returns _ _ _ _ _ Hq).
    cbn. f_equal. apply func_frame_unchanged.
  - unfold HandleLeaveLobbyRequest, func. rewrite (bind_returns _ _ _ _ _ Hq).
    cbn. f_equal. apply func_frame_unchanged.
  - unfold HandleLobbyKickRequest. rewrite (bind_returns _ _ _ _ _ Hfind). reflexivity.
  - unfold HandleCreateLobbyRequest, func. rewrite (bind_returns _ _ _ _ _ Hq).
    destruct s as [cs ls [] na nl w c lg h d]; reflexivity.
  - unfold HandlePlayerListRequest, func. rewrite (bind_returns _ _ _ _ _ Hq).
    destruct s as [cs ls [] na nl w c lg h d]; reflexivity.
Qed.

Lemma not_logged_in_witness :
  @HandleJoinLobbyRequest quiet 99
    {| join_Type := PacketTypeJoinLobbyRequest; join_ID := 7; join_Name := "Foo" |}
    lobby_server
  = Returns (Some (lookup_failed ByConnection)) lobby_server
  ∧ @HandleCreateLobbyRequest quiet 99
      {| create_Type := PacketTypeCreateLobbyRequest; create_Name := "Bar" |} lobby_server
    = Returns (Some (lookup_failed ByConnection)) lobby_server.
Proof.
  destruct (@not_logged_in quiet 99 (lookup_failed ByConnection) lobby_server eq_refl)
    as (_ & _ & _ & Hjoin & _ & _ & Hcreate & _).
  split; [apply Hjoin | apply Hcreate].
Defined.


(** *** Broadcasts and lists *)

Lemma FindPlayerByConnection_elem (client : Conn) (p : Player) (s : Server) :
  FindPlayerByConnection client s = Returns (Ok p) s -> p ∈ Clients s ∧ Client p = client.
Proof.
  unfold FindPlayerByConnection, gets. intros [= Hr].
  destruct (list_find (fun p => Client p = client) (Clients s)) as [[i q]|] eqn:Hf;
    [|discriminate Hr].
  injection Hr as ->. apply list_find_Some in Hf as (Hi & Hc & _).
  split; [exact (list_elem_of_lookup_2 _ _ _ Hi) | exact Hc].
Qed.

Lemma foldl_snoc_fmap {A B} (f : A -> B) (l : list A) (acc : list B) :
  foldl (fun acc x => acc ++ [f x]) acc l = acc ++ (f <$> l).
Proof.
  revert acc. induction l as [|x l IH]; intros acc; cbn.
  - rewrite app_nil_r. reflexivity.
  - rewrite IH, <- app_assoc. reflexivity.
Qed.

(** The run of [HandleGlobalChatRequest] for a logged-in sender, with the
    registered players distinct and none of their mutexes held. *)
Lemma global_chat_found `{Environment} (client : Conn)
    (packet : GlobalChatRequestPacket) (player : Player) (s : Server) :
  FindPlayerByConnection client s = Returns (Ok player) s ->
  NoDup (addr <$> Clients s) ->
  (∀ p, p ∈ Clients s -> addr p ∉ held s) ->
  HandleGlobalChatRequest client packet s
  = Returns None
      (set_logged (logged s ++ [LogGlobalChat (Name player) (Message packet)])
         (set_written
            (written s
             ++ ((fun p => (Client p, GlobalChatResponse (Name player) (Message packet)))
                   <$> Clients s)) s)).
Proof.
  intros Hfind Hnd Hfree.
  destruct (FindPlayerByConnection_elem _ _ _ Hfind) as [Hin _].
  unfold HandleGlobalChatRequest, func.
  rewrite (bind_returns _ _ _ _ _ (gets_frame _ s (set_deferred [] s) _ Hfind eq_refl)).
  cbv beta iota.
  assert ((Lock player ;; Unlock player) (set_deferred [] s) = Returns tt (set_deferred [] s))
    as Hpeek.
  { unfold bind, Lock. cbn [held set_deferred].
    rewrite bool_decide_false by exact (Hfree _ Hin).
    unfold Unlock, modify. cbn [held set_held]. rewrite (release_here _ _ (Hfree _ Hin)).
    destruct s; reflexivity. }
  unfold bind at 1. unfold bind at 1 in Hpeek.
  destruct (Lock player (set_deferred [] s)) as [[] s1| |s1]; try discriminate Hpeek.
  rewrite (bind_returns _ _ _ _ _ Hpeek).
  unfold bind at 1. unfold gets at 1. unfold SendGlobalChatResponse.
  rewrite (bind_returns _ _ _ _ _
             (range_locked (fun _ => GlobalChatResponse (Name player) (Message packet))
                (Clients s) (set_deferred [] s) Hnd Hfree)).
  cbn. f_equal. rewrite app_nil_r.
  rewrite release_deferred.
  - destruct s; reflexivity.
  - intros b Hb. apply list_elem_of_In, in_rev, list_elem_of_In in Hb.
    apply list_elem_of_fmap in Hb as (p & -> & Hp).
    exact (Hfree p Hp).
Qed.


(** X2.  A global chat request from a logged-in player, with the registered
    players distinct and none of their mutexes held, writes one
    [GlobalChatResponse] carrying the sender's name and the message to every
    registered player, the sender included, in registry order; it logs the
    line once, returns no error whatever the writes reported, and leaves the
    registries and the mutexes as they were. *)
Theorem global_chat_broadcast `{Environment} (client : Conn)
    (packet : GlobalChatRequestPacket) (player : Player) (s : Server) :
  FindPlayerByConnection client s = Returns (Ok player) s ->
  NoDup (addr <$> Clients s) ->
  (∀ p, p ∈ Clients s -> addr p ∉ held s) ->
  ∃ s', HandleGlobalChatRequest client packet s = Returns None s'
      ∧ written s'
        = written s
          ++ ((fun p => (Client p, GlobalChatResponse (Name player) (Message packet)))
                <$> Clients s)
      ∧ logged s' = logged s ++ [LogGlobalChat (Name player) (Message packet)]
      ∧ Clients s' = Clients s ∧ Lobbies s' = Lobbies s ∧ held s' = held s.
Proof.
  intros Hfind Hnd Hfree. eexists.
  split; [exact (global_chat_found client packet player s Hfind Hnd Hfree)|].
  cbn. auto.
Qed.

Lemma global_chat_broadcast_witness :
  ∃ s', @HandleGlobalChatRequest flaky 12
          {| chat_Type := PacketTypeGlobalChatRequest; Message := "hi" |} lobby_server
        = Returns None s'
      ∧ written s' = [(11, GlobalChatResponse "Bob" "hi"); (12, GlobalChatResponse "Bob" "hi");
                      (13, GlobalChatResponse "Bob" "hi")]
      ∧ logged s' = [LogGlobalChat "Bob" "hi"].
Proof.
  assert (NoDup (addr <$> Clients lobby_server)) as Hnd.
  { cbn. repeat (apply NoDup_cons; split; [rewrite ?elem_of_cons, elem_of_nil; lia|]).
    apply NoDup_nil_2. }
  assert (∀ p, p ∈ Clients lobby_server -> addr p ∉ held lobby_server) as Hfree
    by (intros p _; cbn; apply not_elem_of_nil).
  destruct (@global_chat_broadcast flaky 12
              {| chat_Type := PacketTypeGlobalChatRequest; Message := "hi" |}
              bob lobby_server eq_refl Hnd Hfree)
    as (s' & Hrun & Hwritten & Hlogged & _).
  exists s'. split; [exact Hrun|]. split; [exact Hwritten | exact Hlogged].
Defined.

Section Unlocked.
Context `{Environment}.
Variable notice : Player -> Response.

(** A loop that writes each player a packet and takes no mutex. *)
Lemma range_unlocked (ps : list Player) (s : Server) :
  range ps (fun p => transmit (Client p) (notice p) ;; ret tt) s
  = Returns tt (set_written (written s ++ ((fun p => (Client p, notice p)) <$> ps)) s).
Proof.
  revert s. induction ps as [|p ps IH]; intros s.
  - cbn. unfold ret. f_equal. rewrite app_nil_r. destruct s; reflexivity.
  - cbn [range]. unfold bind at 1. unfold bind at 1. unfold transmit at 1. unfold ret at 1.
    rewrite IH. f_equal. unfold set_written. cbn. rewrite <- !app_assoc. reflexivity.
Qed.

End Unlocked.

(** The run of [HandlePlayerListRequest] for a logged-in requester whose
    mutex is free. *)
Lemma player_list_found `{Environment} (client : Conn) (packet : PlayerListRequestPacket)
    (player : Player) (s : Server) :
  FindPlayerByConnection client s = Returns (Ok player) s ->
  addr player ∉ held s ->
  let playerList :=
    {| Players := (fun p => {| entry_ID := ID p; entry_Name := Name p |}) <$> Clients s;
       Count := length (Clients s) |} in
  let sent := set_written (written s ++ [(Client player, PlayerListResponse playerList)]) s in
  HandlePlayerListRequest client packet s
  = match WriteError (Client player) (PlayerListResponse playerList) with
    | Some e => Returns (Some e) sent
    | None => Returns None (set_logged (logged s ++ [LogPlayerListRequested (Name player)]) sent)
    end.
Proof.
  intros Hfind Hfree. cbv zeta.
  unfold HandlePlayerListRequest, func.
  rewrite (bind_returns _ _ _ _ _ (gets_frame _ s (set_deferred [] s) _ Hfind eq_refl)).
  cbv beta iota. unfold bind at 1. unfold Lock. cbn [held set_deferred].
  rewrite bool_decide_false by exact Hfree.
  unfold bind at 1. cbn [defer_Unlock modify]. unfold bind at 1. unfold gets at 1.
  cbn [Clients set_deferred set_held]. rewrite foldl_snoc_fmap. cbn [app].
  rewrite length_fmap.
  unfold bind at 1. unfold SendPlayerListResponse, transmit.
  destruct (WriteError _ _) as [e|]; cbn -[release]; rewrite (release_here _ _ Hfree);
    destruct s; reflexivity.
Qed.

(** The same run in the earlier copy, which takes no mutex. *)
Lemma earlier_player_list_found `{Environment} (client : Conn)
    (packet : PlayerListRequestPacket) (player : Player) (s : Server) :
  FindPlayerByConnection client s = Returns (Ok player) s ->
  let playerList :=
    {| Players := (fun p => {| entry_ID := ID p; entry_Name := Name p |}) <$> Clients s;
       Count := length (Clients s) |} in
  let sent := set_written (written s ++ [(Client player, PlayerListResponse playerList)]) s in
  Earlier.HandlePlayerListRequest client packet s
  = match WriteError (Client player) (PlayerListResponse playerList) with
    | Some e => Returns (Some e) sent
    | None => Returns None (set_logged (logged s ++ [LogPlayerListRequested (Name player)]) sent)
    end.
Proof.
  intros Hfind. cbv zeta. unfold Earlier.HandlePlayerListRequest.
  rewrite (bind_returns _ _ _ _ _ Hfind). cbv beta iota.
  unfold bind at 1. unfold gets at 1. rewrite foldl_snoc_fmap. cbn [app].
  rewrite length_fmap.
  unfold bind at 1. unfold SendPlayerListResponse, transmit.
  destruct (WriteError _ _) as [e|]; reflexivity.
Qed.

(** X3.  A player-list request from a logged-in player whose mutex is free
    writes that player one [PlayerListResponse] with an entry (ID, name) for
    every registered player, in registry order, and their number as [Count].
    When the write fails the handler returns the write's error and logs
    nothing; otherwise it returns no error and logs the request.  Registries
    and mutexes are as before. *)
Theorem player_list_response `{Environment} (client : Conn)
    (packet : PlayerListRequestPacket) (player : Player) (s : Server) :
  FindPlayerByConnection client s = Returns (Ok player) s ->
  addr player ∉ held s ->
  let playerList :=
    {| Players := (fun p => {| entry_ID := ID p; entry_Name := Name p |}) <$> Clients s;
       Count := length (Clients s) |} in
  ∃ s', HandlePlayerListRequest client packet s
        = Returns (WriteError (Client player) (PlayerListResponse playerList)) s'
      ∧ written s' = written s ++ [(Client player, PlayerListResponse playerList)]
      ∧ logged s'
        = logged s ++ match WriteError (Client player) (PlayerListResponse playerList) with
                      | Some _ => []
                      | None => [LogPlayerListRequested (Name player)]
                      end
      ∧ Clients s' = Clients s ∧ Lobbies s' = Lobbies s ∧ held s' = held s.
Proof.
  intros Hfind Hfree. cbv zeta.
  rewrite (player_list_found client packet player s Hfind Hfree). cbv zeta.
  destruct (WriteError _ _) as [e|]; eexists; (split; [reflexivity|]); cbn;
    rewrite ?app_nil_r; auto.
Qed.

Lemma player_list_response_witness :
  (∃ s', @HandlePlayerListRequest flaky 13
           {| playerlist_Type := PacketTypePlayerListRequest |} lobby_server
         = Returns (Some (foreign 32)) s'
       ∧ logged s' = [])
  ∧ (∃ s', @HandlePlayerListRequest flaky 12
             {| playerlist_Type := PacketTypePlayerListRequest |} lobby_server
           = Returns None s'
         ∧ written s'
           = [(12, PlayerListResponse
                     {| Players := [ {| entry_ID := "alice"; entry_Name := "Alice" |};
                                     {| entry_ID := "bob"; entry_Name := "Bob" |};
                                     {| entry_ID := "carol"; entry_Name := "Carol" |} ];
                        Count := 3 |})]
         ∧ logged s' = [LogPlayerListRequested "Bob"]).
Proof.
  split.
  - destruct (@player_list_response flaky 13
                {| playerlist_Type := PacketTypePlayerListRequest |} carol lobby_server
                eq_refl (not_elem_of_nil _))
      as (s' & Hrun & _ & Hlogged & _).
    exists s'. split; [exact Hrun | exact Hlogged].
  - destruct (@player_list_response flaky 12
                {| playerlist_Type := PacketTypePlayerListRequest |} bob lobby_server
                eq_refl (not_elem_of_nil _))
      as (s' & Hrun & Hwritten & Hlogged & _).
    exists s'. split; [exact Hrun|]. split; [exact Hwritten | exact Hlogged].
Defined.

(** X4.  A lobby-list request from a logged-in player writes that player one
    [LobbyListResponse] with an entry (ID, name) for every lobby of the
    registry, in registry order, and their number as [Count]; it takes no
    mutex, logs the request and returns no error even when the write failed.
    The earlier copy does the same. *)
Theorem lobby_list_response `{Environment} (client : Conn)
    (packet : LobbyListRequestPacket) (player : Player) (s : Server) :
  FindPlayerByConnection client s = Returns (Ok player) s ->
  let lobbyList :=
    {| LobbyEntries :=
         (fun lobby => {| lentry_ID := lobby_id lobby; lentry_Name := name lobby |})
           <$> Lobbies s;
       LobbyCount := length (Lobbies s) |} in
  let s' :=
    set_logged (logged s ++ [LogLobbyListRequested (Name player)])
      (set_written (written s ++ [(Client player, LobbyListResponse lobbyList)]) s) in
  HandleLobbyListRequest client packet s = Returns None s'
  ∧ Earlier.HandleLobbyListRequest client packet s = Returns None s'.
Proof.
  intros Hfind. cbv zeta.
  assert (HandleLobbyListRequest client packet s
          = Returns None
              (set_logged (logged s ++ [LogLobbyListRequested (Name player)])
                 (set_written
                    (written s
                     ++ [(Client player,
                          LobbyListResponse
                            {| LobbyEntries :=
                                 (fun lobby => {| lentry_ID := lobby_id lobby;
                                                  lentry_Name := name lobby |})
                                   <$> Lobbies s;
                               LobbyCount := length (Lobbies s) |})]) s))) as Hrun.
  { unfold HandleLobbyListRequest.
    rewrite (bind_returns _ _ _ _ _ Hfind). cbv beta iota.
    unfold bind at 1. unfold gets at 1. rewrite foldl_snoc_fmap. cbn [app].
    rewrite length_fmap. reflexivity. }
  split; exact Hrun.
Qed.

Lemma lobby_list_response_witness :
  @HandleLobbyListRequest flaky 13 {| lobbylist_Type := PacketTypeLobbyListRequest |}
    lobby_server
  = Returns None
      (set_logged [LogLobbyListRequested "Carol"]
         (set_written
            [(13, LobbyListResponse
                    {| LobbyEntries := [ {| lentry_ID := 7; lentry_Name := "Foo" |} ];
                       LobbyCount := 1 |})] lobby_server)).
Proof.
  exact (proj1 (@lobby_list_response flaky 13
                  {| lobbylist_Type := PacketTypeLobbyListRequest |} carol lobby_server
                  eq_refl)).
Defined.

(** *** Creating a lobby *)

(** The run of [HandleCreateLobbyRequest] for a logged-in requester whose
    mutex is free. *)
Lemma create_lobby_found `{Environment} (client : Conn) (packet : CreateLobbyRequestPacket)
    (player : Player) (s : Server) :
  FindPlayerByConnection client s = Returns (Ok player) s ->
  addr player ∉ held s ->
  HandleCreateLobbyRequest client packet s
  = Returns (WriteError (Client player) (CreateLobbyResponse (next_lobby s)))
      (set_written (written s ++ [(Client player, CreateLobbyResponse (next_lobby s))])
         (set_logged
            (logged s ++ [LogLobbyCreated (Name player) (create_Name packet) (next_lobby s)])
            (set_next_lobby (S (next_lobby s))
               (set_Lobbies
                  (Lobbies s ++ [mkLobby (next_lobby s) (create_Name packet) player [player]])
                  s)))).
Proof.
  intros Hfind Hfree.
  unfold HandleCreateLobbyRequest, func.
  rewrite (bind_returns _ _ _ _ _ (gets_frame _ s (set_deferred [] s) _ Hfind eq_refl)).
  cbv beta iota. unfold bind at 1. unfold Lock. cbn [held set_deferred].
  rewrite bool_decide_false by exact Hfree.
  unfold bind at 1. cbn [defer_Unlock modify]. unfold bind at 1. unfold AddLobby.
  unfold bind at 1. unfold deref.
  cbn [Lobbies set_deferred set_held set_Lobbies set_next_lobby].
  rewrite lookup_app_r by reflexivity. rewrite Nat.sub_diag. cbn [lookup list_lookup].
  cbn -[release]. rewrite (release_here _ _ Hfree). destruct s; reflexivity.
Qed.

Lemma earlier_create_lobby_found `{Environment} (client : Conn)
    (packet : CreateLobbyRequestPacket) (player : Player) (s : Server) :
  FindPlayerByConnection client s = Returns (Ok player) s ->
  Earlier.HandleCreateLobbyRequest client packet s
  = Returns (WriteError (Client player) (CreateLobbyResponse (next_lobby s)))
      (set_written (written s ++ [(Client player, CreateLobbyResponse (next_lobby s))])
         (set_logged
            (logged s ++ [LogLobbyCreated (Name player) (create_Name packet) (next_lobby s)])
            (set_next_lobby (S (next_lobby s))
               (set_Lobbies
                  (Lobbies s ++ [mkLobby (next_lobby s) (create_Name packet) player [player]])
                  s)))).
Proof.
  intros Hfind. unfold Earlier.HandleCreateLobbyRequest.
  rewrite (bind_returns _ _ _ _ _ Hfind). cbv beta iota.
  unfold bind at 1. unfold AddLobby. unfold bind at 1. unfold deref.
  cbn [Lobbies set_Lobbies set_next_lobby].
  rewrite lookup_app_r by reflexivity. rewrite Nat.sub_diag. cbn [lookup list_lookup].
  reflexivity.
Qed.

(** X5.  A create-lobby request from a logged-in player whose mutex is free
    appends one lobby to the Lobby Registry, named as the packet says, with
    the requester as host and only member; it logs the creation, writes the
    requester one [CreateLobbyResponse] with the new lobby's ID, and returns
    what that write returned: when the write fails the error is returned and
    the lobby is in the registry all the same.  The handler does not look at
    the lobbies already there. *)
Theorem create_lobby `{Environment} (client : Conn) (packet : CreateLobbyRequestPacket)
    (player : Player) (s : Server) :
  FindPlayerByConnection client s = Returns (Ok player) s ->
  addr player ∉ held s ->
  ∃ s' l, Lobbies s' = Lobbies s ++ [l]
      ∧ lobby_id l = next_lobby s
      ∧ name l = create_Name packet ∧ host l = player ∧ players l = [player]
      ∧ HandleCreateLobbyRequest client packet s
        = Returns (WriteError (Client player) (CreateLobbyResponse (lobby_id l))) s'
      ∧ written s' = written s ++ [(Client player, CreateLobbyResponse (lobby_id l))]
      ∧ logged s' = logged s ++ [LogLobbyCreated (Name player) (name l) (lobby_id l)]
      ∧ Clients s' = Clients s ∧ held s' = held s.
Proof.
  intros Hfind Hfree.
  eexists. exists (mkLobby (next_lobby s) (create_Name packet) player [player]).
  split; [|split; [|split; [|split; [|split; [|split;
    [exact (create_lobby_found client packet player s Hfind Hfree)|]]]]]]; cbn; auto.
Qed.

Lemma create_lobby_witness :
  ∃ s', @HandleCreateLobbyRequest flaky 13
          {| create_Type := PacketTypeCreateLobbyRequest; create_Name := "Foo" |} lobby_server
        = Returns (Some (foreign 32)) s'
      ∧ Lobbies s' = [foo; mkLobby 8 "Foo" carol [carol]].
Proof.
  destruct (@create_lobby flaky 13
              {| create_Type := PacketTypeCreateLobbyRequest; create_Name := "Foo" |}
              carol lobby_server eq_refl (not_elem_of_nil _))
    as (s' & l & Hlobbies & Hid & Hname & Hhost & Hplayers & Hrun & _).
  exists s'. split.
  - rewrite Hid in Hrun. exact Hrun.
  - rewrite Hlobbies. destruct l as [i n h ps]. cbn in Hid, Hname, Hhost, Hplayers.
    rewrite Hid, Hname, Hhost, Hplayers. reflexivity.
Defined.

(** *** Login: the two other ways out *)

(** X6.  When the identity service fails, [HandleLoginRequest] returns the
    service's error and does nothing else: the IDs are not compared, nothing
    is written or closed, nobody is registered.  Both copies agree. *)
Theorem login_vault_error `{Environment} (client : Conn) (packet : LoginRequestPacket)
    (vaultUser : VaultUser) (e : error) (s : Server) :
  RetrieveProfile (login_Token packet) = (vaultUser, Some e) ->
  HandleLoginRequest client packet s = Returns (Some e) s
  ∧ Earlier.HandleLoginRequest client packet s = Returns (Some e) s.
Proof.
  intros Hprofile.
  split; [unfold HandleLoginRequest | unfold Earlier.HandleLoginRequest];
    rewrite Hprofile; reflexivity.
Qed.

Lemma login_vault_error_witness :
  @HandleLoginRequest flaky 14
    {| login_Type := PacketTypeLoginRequest; login_Name := "Dave"; login_ID := "";
       login_Token := "expired" |} lobby_server
  = Returns (Some (foreign 401)) lobby_server.
Proof.
  exact (proj1 (@login_vault_error flaky 14
                  {| login_Type := PacketTypeLoginRequest; login_Name := "Dave";
                     login_ID := ""; login_Token := "expired" |}
                  {| vault_ID := "" |} (foreign 401) lobby_server eq_refl)).
Defined.

Lemma list_find_replaced (client : Conn) (player : Player) (cs : list Player) :
  Client player = client ->
  list_find (fun p => Client p = client)
    (filter (fun q => Client q ≠ client) cs ++ [player])
  = Some (length (filter (fun q => Client q ≠ client) cs), player).
Proof.
  intros Hc. apply list_find_Some. split; [|split].
  - rewrite lookup_app_r by reflexivity. rewrite Nat.sub_diag. reflexivity.
  - exact Hc.
  - intros j q Hq Hj. rewrite lookup_app_l in Hq by exact Hj.
    apply list_elem_of_lookup_2, list_elem_of_filter in Hq. tauto.
Qed.

(** X7.  When the identity service returns an identity with the ID the
    packet claims, [HandleLoginRequest] returns no error and registers one
    player under the connection, with the packet's ID and the packet's name:
    afterwards that player is the one the connection resolves to, and the
    players of the other connections are registered as before; when the
    connection was not registered, the registry is the old one with the new
    player at its end.  Nothing is written to the client, nothing is closed
    or logged, and no lobby changes. *)
Theorem login_registers_player `{Environment} (client : Conn)
    (packet : LoginRequestPacket) (vaultUser : VaultUser) (s : Server) :
  RetrieveProfile (login_Token packet) = (vaultUser, None) ->
  vault_ID vaultUser = login_ID packet ->
  ∃ s' player, HandleLoginRequest client packet s = Returns None s'
      ∧ ID player = login_ID packet
      ∧ Name player = login_Name packet
      ∧ Client player = client
      ∧ FindPlayerByConnection client s' = Returns (Ok player) s'
      ∧ (∀ q, q ∈ Clients s' ↔ q = player ∨ (q ∈ Clients s ∧ Client q ≠ client))
      ∧ ((∀ q, q ∈ Clients s -> Client q ≠ client) -> Clients s' = Clients s ++ [player])
      ∧ Lobbies s' = Lobbies s
      ∧ written s' = written s
      ∧ closed s' = closed s
      ∧ logged s' = logged s.
Proof.
  intros Hprofile Hid. unfold HandleLoginRequest. rewrite Hprofile.
  rewrite bool_decide_false by (intros Hne; exact (Hne Hid)).
  eexists. exists (mkPlayer (next_addr s) (login_ID packet) (login_Name packet) client).
  split; [reflexivity|].
  split; [reflexivity|]. split; [reflexivity|]. split; [reflexivity|]. split.
  { unfold FindPlayerByConnection, gets. cbn [Clients set_Clients set_next_addr Client].
    rewrite list_find_replaced by reflexivity. reflexivity. }
  split.
  { intros q. cbn [Clients set_Clients set_next_addr Client].
    rewrite elem_of_app, list_elem_of_filter, list_elem_of_singleton. tauto. }
  split.
  { intros Hfresh. cbn [Clients set_Clients set_next_addr Client].
    rewrite (filter_all _ _ Hfresh). reflexivity. }
  cbn. auto.
Qed.

Lemma login_registers_player_witness :
  ∃ s' player, @HandleLoginRequest quiet 14
                 {| login_Type := PacketTypeLoginRequest; login_Name := "Dave";
                    login_ID := "dave"; login_Token := "dave" |} lobby_server
               = Returns None s'
      ∧ ID player = "dave" ∧ Name player = "Dave" ∧ Client player = 14
      ∧ FindPlayerByConnection 14 s' = Returns (Ok player) s'
      ∧ Clients s' = [alice; bob; carol; player]
      ∧ written s' = [].
Proof.
  destruct (@login_registers_player quiet 14
              {| login_Type := PacketTypeLoginRequest; login_Name := "Dave";
                 login_ID := "dave"; login_Token := "dave" |}
              {| vault_ID := "dave" |} lobby_server eq_refl eq_refl)
    as (s' & player & Hrun & Hid & Hname & Hclient & Hfind & _ & Hfresh & _ & Hwritten & _).
  exists s', player. split; [exact Hrun|].
  split; [exact Hid|]. split; [exact Hname|]. split; [exact Hclient|].
  split; [exact Hfind|]. split; [|exact Hwritten].
  apply Hfresh. intros q Hq. cbn in Hq.
  repeat (apply elem_of_cons in Hq as [->|Hq]); [cbn; lia ..|].
  apply elem_of_nil in Hq. destruct Hq.
Defined.

(** *** Leaving a lobby *)

(** What the ID branch of [HandleLeaveLobbyRequest] does with the lobby it
    found: remove the player, then tell every remaining member. *)
Lemma leave_found_by_id `{Environment} (player : Player) (lobby : LobbyPtr) (l : Lobby)
    (s : Server) :
  Lobbies s !! lobby = Some l ->
  (Lobby_RemovePlayer lobby player ;;
   l <- deref lobby ;;
   range (players l) (fun p =>
     SendLeaveLobbyResponse p (name l) (lobby_id l) true ;;
     ret tt) ;;
   ret None) s
  = Returns (@None error)
      (set_written
         (written s ++ ((fun p => (Client p, LeaveLobbyResponse (name l) (lobby_id l) true))
                          <$> players (remove_member player l)))
         (set_Lobbies (alter (remove_member player) lobby (Lobbies s)) s)).
Proof.
  intros Hl.
  assert (Lobby_RemovePlayer lobby player s
          = Returns tt (set_Lobbies (alter (remove_member player) lobby (Lobbies s)) s)) as Hrm.
  { unfold Lobby_RemovePlayer, bind, deref. rewrite Hl. reflexivity. }
  rewrite (bind_returns _ _ _ _ _ Hrm).
  assert (deref lobby (set_Lobbies (alter (remove_member player) lobby (Lobbies s)) s)
          = Returns (remove_member player l)
              (set_Lobbies (alter (remove_member player) lobby (Lobbies s)) s)) as Hderef.
  { unfold deref, set_Lobbies. cbn [Lobbies]. rewrite list_lookup_alter_eq, Hl. reflexivity. }
  rewrite (bind_returns _ _ _ _ _ Hderef).
  cbn [name lobby_id remove_member]. unfold SendLeaveLobbyResponse.
  rewrite (bind_returns _ _ _ _ _
             (range_unlocked (fun _ => LeaveLobbyResponse (name l) (lobby_id l) true) _ _)).
  reflexivity.
Qed.

(** The name branch does the same under each remaining member's mutex. *)
Lemma leave_found_by_name `{Environment} (player : Player) (lobby : LobbyPtr) (l : Lobby)
    (s : Server) :
  Lobbies s !! lobby = Some l ->
  NoDup (addr <$> players (remove_member player l)) ->
  (∀ p, p ∈ players (remove_member player l) -> addr p ∉ held s) ->
  (Lobby_RemovePlayer lobby player ;;
   l <- deref lobby ;;
   range (players l) (fun p =>
     Lock p ;;
     defer_Unlock p ;;
     SendLeaveLobbyResponse p (name l) (lobby_id l) true ;;
     ret tt) ;;
   ret None) s
  = Returns (@None error)
      (set_written
         (written s ++ ((fun p => (Client p, LeaveLobbyResponse (name l) (lobby_id l) true))
                          <$> players (remove_member player l)))
         (set_deferred (rev (addr <$> players (remove_member player l)) ++ deferred s)
            (set_held (rev (addr <$> players (remove_member player l)) ++ held s)
               (set_Lobbies (alter (remove_member player) lobby (Lobbies s)) s)))).
Proof.
  intros Hl Hnd Hfree.
  assert (Lobby_RemovePlayer lobby player s
          = Returns tt (set_Lobbies (alter (remove_member player) lobby (Lobbies s)) s)) as Hrm.
  { unfold Lobby_RemovePlayer, bind, deref. rewrite Hl. reflexivity. }
  rewrite (bind_returns _ _ _ _ _ Hrm).
  assert (deref lobby (set_Lobbies (alter (remove_member player) lobby (Lobbies s)) s)
          = Returns (remove_member player l)
              (set_Lobbies (alter (remove_member player) lobby (Lobbies s)) s)) as Hderef.
  { unfold deref, set_Lobbies. cbn [Lobbies]. rewrite list_lookup_alter_eq, Hl. reflexivity. }
  rewrite (bind_returns _ _ _ _ _ Hderef).
  cbn [name lobby_id remove_member]. unfold SendLeaveLobbyResponse.
  assert (∀ p, p ∈ players (remove_member player l) ->
            addr p ∉ held (set_Lobbies (alter (remove_member player) lobby (Lobbies s)) s))
    as Hfree' by exact Hfree.
  rewrite (bind_returns _ _ _ _ _
             (range_locked (fun _ => LeaveLobbyResponse (name l) (lobby_id l) true) _ _
                Hnd Hfree')).
  reflexivity.
Qed.

(** X8.  A leave request from a logged-in player who is in some lobby, whose
    packet ID resolves to a lobby: the player is removed from the members of
    the lobby the packet names (which need not be the lobby the player is in),
    [LeaveLobbyResponse (lobbyName, lobbyID, true)] is written to every member
    that remains, in member order, and not to the leaver; no error is
    returned.  This branch takes no mutex, so it runs whatever mutexes are
    held, and it leaves them as they were. *)
Theorem leave_by_id `{Environment} (client : Conn) (packet : LeaveLobbyRequestPacket)
    (player : Player) (lobby : LobbyPtr) (l : Lobby) (s : Server) :
  FindPlayerByConnection client s = Returns (Ok player) s ->
  PlayerHasLobby player s = Returns true s ->
  FindLobbyByID (leave_ID packet) s = Returns (Ok lobby) s ->
  Lobbies s !! lobby = Some l ->
  HandleLeaveLobbyRequest client packet s
  = Returns None
      (set_written
         (written s ++ ((fun p => (Client p, LeaveLobbyResponse (name l) (lobby_id l) true))
                          <$> players (remove_member player l)))
         (set_Lobbies (alter (remove_member player) lobby (Lobbies s)) s))
  ∧ (∀ q, q ∈ players (remove_member player l) -> same_player player q = false).
Proof.
  intros Hfind Hhas Hid Hl. split.
  - unfold HandleLeaveLobbyRequest, func.
    rewrite (bind_returns _ _ _ _ _ (gets_frame _ s (set_deferred [] s) _ Hfind eq_refl)).
    cbv beta iota.
    rewrite (bind_returns _ _ _ _ _ (gets_frame _ s (set_deferred [] s) _ Hhas eq_refl)).
    cbv beta iota. cbn [negb].
    rewrite (bind_returns _ _ _ _ _ (gets_frame _ s (set_deferred [] s) _ Hid eq_refl)).
    cbv beta iota.
    rewrite (leave_found_by_id player lobby l (set_deferred [] s) Hl).
    reflexivity.
  - intros q Hq. exact (not_same_after_filter _ _ _ Hq).
Qed.

Lemma leave_by_id_witness :
  @HandleLeaveLobbyRequest quiet 12
    {| leave_Type := PacketTypeLeaveLobbyRequest; leave_ID := 7; leave_Name := "" |}
    (set_held [1; 2] lobby_server)
  = Returns None
      (set_written [(11, LeaveLobbyResponse "Foo" 7 true)]
         (set_Lobbies [mkLobby 7 "Foo" alice [alice]] (set_held [1; 2] lobby_server))).
Proof.
  exact (proj1 (@leave_by_id quiet 12
                  {| leave_Type := PacketTypeLeaveLobbyRequest; leave_ID := 7;
                     leave_Name := "" |}
                  bob 0 foo (set_held [1; 2] lobby_server) eq_refl eq_refl eq_refl eq_refl)).
Defined.

(** X9.  The same request resolved by name, after the packet ID resolved to
    no lobby: with the remaining members distinct and none of their mutexes
    held, the outcome is that of the ID branch: the player removed,
    one [LeaveLobbyResponse] to every remaining member in member order, no
    error, and the mutexes as they were. *)
Theorem leave_by_name `{Environment} (client : Conn) (packet : LeaveLobbyRequestPacket)
    (player : Player) (lobby : LobbyPtr) (l : Lobby) (e : error) (s : Server) :
  FindPlayerByConnection client s = Returns (Ok player) s ->
  PlayerHasLobby player s = Returns true s ->
  FindLobbyByID (leave_ID packet) s = Returns (Err e) s ->
  FindLobbyByName (leave_Name packet) s = Returns (Ok lobby) s ->
  Lobbies s !! lobby = Some l ->
  NoDup (addr <$> players (remove_member player l)) ->
  (∀ p, p ∈ players (remove_member player l) -> addr p ∉ held s) ->
  HandleLeaveLobbyRequest client packet s
  = Returns None
      (set_written
         (written s ++ ((fun p => (Client p, LeaveLobbyResponse (name l) (lobby_id l) true))
                          <$> players (remove_member player l)))
         (set_Lobbies (alter (remove_member player) lobby (Lobbies s)) s)).
Proof.
  intros Hfind Hhas Hid Hname Hl Hnd Hfree.
  unfold HandleLeaveLobbyRequest, func.
  rewrite (bind_returns _ _ _ _ _ (gets_frame _ s (set_deferred [] s) _ Hfind eq_refl)).
  cbv beta iota.
  rewrite (bind_returns _ _ _ _ _ (gets_frame _ s (set_deferred [] s) _ Hhas eq_refl)).
  cbv beta iota. cbn [negb].
  rewrite (bind_returns _ _ _ _ _ (gets_frame _ s (set_deferred [] s) _ Hid eq_refl)).
  cbv beta iota.
  rewrite (bind_returns _ _ _ _ _ (gets_frame _ s (set_deferred [] s) _ Hname eq_refl)).
  cbv beta iota.
  rewrite (leave_found_by_name player lobby l (set_deferred [] s) Hl Hnd Hfree).
  f_equal. cbn -[release remove_member]. rewrite app_nil_r.
  rewrite release_deferred.
  - destruct s; reflexivity.
  - intros b Hb. apply list_elem_of_In, in_rev, list_elem_of_In in Hb.
    apply list_elem_of_fmap in Hb as (p & -> & Hp). exact (Hfree p Hp).
Qed.

Lemma leave_by_name_witness :
  @HandleLeaveLobbyRequest quiet 12
    {| leave_Type := PacketTypeLeaveLobbyRequest; leave_ID := 0; leave_Name := "Foo" |}
    lobby_server
  = Returns None
      (set_written [(11, LeaveLobbyResponse "Foo" 7 true)]
         (set_Lobbies [mkLobby 7 "Foo" alice [alice]] lobby_server)).
Proof.
  assert (NoDup (addr <$> players (remove_member bob foo))) as Hnd
    by (cbn; apply NoDup_singleton).
  assert (∀ p, p ∈ players (remove_member bob foo) -> addr p ∉ held lobby_server) as Hfree
    by (intros p _; cbn; apply not_elem_of_nil).
  exact (@leave_by_name quiet 12
           {| leave_Type := PacketTypeLeaveLobbyRequest; leave_ID := 0; leave_Name := "Foo" |}
           bob 0 foo (lookup_failed ByLobbyID) lobby_server
           eq_refl eq_refl eq_refl eq_refl eq_refl Hnd Hfree).
Defined.

(** X10.  A leave request from a logged-in player who is in some lobby, for
    which neither the packet ID nor the packet name resolves to a lobby,
    returns the error "no such lobby found" and leaves the server exactly as
    it was: the player is still in the lobby it was in. *)
Theorem leave_no_such_lobby `{Environment} (client : Conn)
    (packet : LeaveLobbyRequestPacket) (player : Player) (e1 e2 : error) (s : Server) :
  FindPlayerByConnection client s = Returns (Ok player) s ->
  PlayerHasLobby player s = Returns true s ->
  FindLobbyByID (leave_ID packet) s = Returns (Err e1) s ->
  FindLobbyByName (leave_Name packet) s = Returns (Err e2) s ->
  HandleLeaveLobbyRequest client packet s
  = Returns (Some (errors_New "no such lobby found")) s.
Proof.
  intros Hfind Hhas Hid Hname. unfold HandleLeaveLobbyRequest, func, bind.
  lookup_in_frame Hfind. lookup_in_frame Hhas. cbn [negb].
  lookup_in_frame Hid. lookup_in_frame Hname.
  cbn. f_equal. apply func_frame_unchanged.
Qed.

Lemma leave_no_such_lobby_witness :
  @HandleLeaveLobbyRequest quiet 12
    {| leave_Type := PacketTypeLeaveLobbyRequest; leave_ID := 0; leave_Name := "" |}
    lobby_server
  = Returns (Some (errors_New "no such lobby found")) lobby_server.
Proof.
  exact (@leave_no_such_lobby quiet 12
           {| leave_Type := PacketTypeLeaveLobbyRequest; leave_ID := 0; leave_Name := "" |}
           bob (lookup_failed ByLobbyID) (lookup_failed ByLobbyName) lobby_server
           eq_refl eq_refl eq_refl eq_refl).
Defined.

(** *** Kicking: the lookups *)

(** X11.  A kick request from a logged-in player returns the error of the
    first lookup that fails and leaves the server exactly as it was: the
    error of [FindPlayerByID] when the target ID is not registered, otherwise
    the error of [FindLobbyByPlayer] when the requester is in no lobby.  In
    neither case is anything logged or written. *)
Theorem kick_lookup_fails `{Environment} (client : Conn) (packet : LobbyKickRequestPacket)
    (player : Player) (s : Server) :
  FindPlayerByConnection client s = Returns (Ok player) s ->
  (∀ e, FindPlayerByID (Target packet) s = Returns (Err e) s ->
     HandleLobbyKickRequest client packet s = Returns (Some e) s)
  ∧ (∀ targetPlayer e,
       FindPlayerByID (Target packet) s = Returns (Ok targetPlayer) s ->
       FindLobbyByPlayer player s = Returns (Err e) s ->
       HandleLobbyKickRequest client packet s = Returns (Some e) s).
Proof.
  intros Hfind. split.
  - intros e Htarget. unfold HandleLobbyKickRequest, bind. rewrite Hfind, Htarget.
    reflexivity.
  - intros targetPlayer e Htarget Hlobby. unfold HandleLobbyKickRequest, bind.
    rewrite Hfind, Htarget, Hlobby. reflexivity.
Qed.

Lemma kick_lookup_fails_witness :
  @HandleLobbyKickRequest quiet 11
    {| kick_Type := PacketTypeLobbyKickRequest; Target := "ghost" |} lobby_server
  = Returns (Some (lookup_failed ByPlayerID)) lobby_server
  ∧ @HandleLobbyKickRequest quiet 13
      {| kick_Type := PacketTypeLobbyKickRequest; Target := "bob" |} lobby_server
    = Returns (Some (lookup_failed ByLobbyPlayer)) lobby_server.
Proof.
  split.
  - exact (proj1 (@kick_lookup_fails quiet 11
                    {| kick_Type := PacketTypeLobbyKickRequest; Target := "ghost" |}
                    alice lobby_server eq_refl) (lookup_failed ByPlayerID) eq_refl).
  - exact (proj2 (@kick_lookup_fails quiet 13
                    {| kick_Type := PacketTypeLobbyKickRequest; Target := "bob" |}
                    carol lobby_server eq_refl) bob (lookup_failed ByLobbyPlayer)
             eq_refl eq_refl).
Defined.

Lemma remove_member_not_member (p : Player) (l : Lobby) :
  member p (remove_member p l) = false.
Proof.
  unfold member, remove_member. cbn [players].
  destruct (existsb _ _) eqn:Hex; [|reflexivity].
  apply existsb_exists in Hex as (q & Hq & Hsame).
  apply list_elem_of_In, not_same_after_filter in Hq. congruence.
Qed.

(** X12.  The handler does not compare the target with the requester: a host
    who names itself as target is removed from the members of its own lobby,
    gets the [LobbyKickResponse] twice, and is still the lobby's host
    afterwards. *)
Theorem host_kicks_itself `{Environment} (client : Conn) (packet : LobbyKickRequestPacket)
    (player : Player) (lobby : LobbyPtr) (l : Lobby) (s : Server) :
  FindPlayerByConnection client s = Returns (Ok player) s ->
  FindPlayerByID (Target packet) s = Returns (Ok player) s ->
  FindLobbyByPlayer player s = Returns (Ok lobby) s ->
  Lobbies s !! lobby = Some l ->
  same_player (host l) player = true ->
  ∃ s' l', HandleLobbyKickRequest client packet s = Returns None s'
      ∧ written s' = written s ++ [(Client player, LobbyKickResponse (ID player) true);
                                   (Client player, LobbyKickResponse (ID player) true)]
      ∧ Lobbies s' !! lobby = Some l'
      ∧ host l' = host l
      ∧ member player l' = false.
Proof.
  intros Hfind Htarget Hlobby Hl Hhost.
  eexists. exists (remove_member player l).
  split; [exact (kick_by_host _ _ _ _ _ _ _ Hfind Htarget Hlobby Hl Hhost)|].
  split; [reflexivity|]. split.
  - unfold set_written, set_Lobbies. cbn [Lobbies].
    rewrite list_lookup_alter_eq, Hl. reflexivity.
  - split; [reflexivity | apply remove_member_not_member].
Qed.

Lemma host_kicks_itself_witness :
  ∃ s' l', @HandleLobbyKickRequest quiet 11
             {| kick_Type := PacketTypeLobbyKickRequest; Target := "alice" |} lobby_server
           = Returns None s'
      ∧ written s' = [(11, LobbyKickResponse "alice" true);
                      (11, LobbyKickResponse "alice" true)]
      ∧ Lobbies s' !! 0 = Some l'
      ∧ host l' = alice
      ∧ member alice l' = false.
Proof.
  exact (@host_kicks_itself quiet 11
           {| kick_Type := PacketTypeLobbyKickRequest; Target := "alice" |}
           alice 0 foo lobby_server eq_refl eq_refl eq_refl eq_refl eq_refl).
Defined.

(** *** The dispatcher's type assertions *)

(** X13.  The dispatcher trusts the header: when the tag has a case and the
    payload is not of the type that case asserts, [HandlePacket] panics, and
    no handler has run. *)
Theorem dispatch_wrong_payload `{Environment} (client : Conn) (packet : Packet)
    (s : Server) :
  dispatched (GetHeader_Type packet) = true ->
  GetHeader_Type packet ≠ payload_tag packet ->
  HandlePacket client packet s = Panics.
Proof.
  intros Hd Hne. unfold HandlePacket.
  destruct packet as [p|p|p|p|p|p|p|p|p|p|p|p]; cbn in Hd, Hne |- *;
    match goal with
    | |- context [match ?t with _ => _ end] => destruct t
    end; try discriminate Hd; try (exfalso; apply Hne; reflexivity); reflexivity.
Qed.

Lemma dispatch_wrong_payload_witness :
  @HandlePacket quiet 11 (PExit {| exit_Type := PacketTypeLoginRequest |}) lobby_server
  = Panics.
Proof.
  apply (@dispatch_wrong_payload quiet 11
           (PExit {| exit_Type := PacketTypeLoginRequest |}) lobby_server).
  - reflexivity.
  - cbn. discriminate.
Defined.

(** X14.  The earlier copy's dispatcher has six cases.  On a packet with any
    other tag it returns with the server untouched; a join request is among
    them, although that copy defines [HandleJoinLobbyRequest], and so are the
    leave, kick and exit requests. *)
Theorem earlier_dispatcher_drops `{Environment} (client : Conn) (packet : Packet)
    (s : Server) :
  earlier_dispatched (GetHeader_Type packet) = false ->
  Earlier.HandlePacket client packet s = Returns tt s.
Proof.
  unfold Earlier.HandlePacket. destruct (GetHeader_Type packet); cbn; intros Hd;
    try discriminate Hd; reflexivity.
Qed.

Lemma earlier_dispatcher_drops_witness :
  @Earlier.HandlePacket quiet 13
    (PJoinLobbyRequest {| join_Type := PacketTypeJoinLobbyRequest; join_ID := 7;
                          join_Name := "Foo" |}) lobby_server
  = Returns tt lobby_server.
Proof.
  apply (@earlier_dispatcher_drops quiet 13
           (PJoinLobbyRequest {| join_Type := PacketTypeJoinLobbyRequest; join_ID := 7;
                                 join_Name := "Foo" |}) lobby_server).
  reflexivity.
Defined.

(** *** The two copies compared *)

Lemma earlier_global_chat_found `{Environment} (client : Conn)
    (packet : GlobalChatRequestPacket) (player : Player) (s : Server) :
  FindPlayerByConnection client s = Returns (Ok player) s ->
  Earlier.HandleGlobalChatRequest client packet s
  = Returns None
      (set_logged (logged s ++ [LogGlobalChat (Name player) (Message packet)])
         (set_written
            (written s
             ++ ((fun p => (Client p, GlobalChatResponse (Name player) (Message packet)))
                   <$> Clients s)) s)).
Proof.
  intros Hfind. unfold Earlier.HandleGlobalChatRequest.
  rewrite (bind_returns _ _ _ _ _ Hfind). cbv beta iota.
  unfold bind at 1. unfold gets at 1. unfold SendGlobalChatResponse.
  rewrite (bind_returns _ _ _ _ _
             (range_unlocked (fun _ => GlobalChatResponse (Name player) (Message packet))
                (Clients s) s)).
  reflexivity.
Qed.

Lemma FindPlayerByConnection_cases (client : Conn) (s : Server) :
  (∃ player, FindPlayerByConnection client s = Returns (Ok player) s)
  ∨ (∃ e, FindPlayerByConnection client s = Returns (Err e) s).
Proof.
  unfold FindPlayerByConnection, gets.
  destruct (list_find _ _) as [[i p]|]; [left | right]; eexists; reflexivity.
Qed.

(** X15.  The player mutexes of the current copy change no outcome when they
    are free: with the registered players distinct and none of their mutexes
    held, the global-chat, create-lobby and player-list handlers return the
    same error and leave the same server as their mutex-free versions in the
    earlier copy, for a logged-in requester and for an unknown connection
    alike ([Server.Log] and [Logger().Log] taken as the one logging port). *)
Theorem mutexes_change_no_outcome `{Environment} (client : Conn) (s : Server) :
  NoDup (addr <$> Clients s) ->
  (∀ p, p ∈ Clients s -> addr p ∉ held s) ->
  (∀ packet, HandleGlobalChatRequest client packet s
             = Earlier.HandleGlobalChatRequest client packet s)
  ∧ (∀ packet, HandleCreateLobbyRequest client packet s
               = Earlier.HandleCreateLobbyRequest client packet s)
  ∧ (∀ packet, HandlePlayerListRequest client packet s
               = Earlier.HandlePlayerListRequest client packet s).
Proof.
  intros Hnd Hfree.
  destruct (FindPlayerByConnection_cases client s) as [[player Hfind]|[e Hfind]].
  - destruct (FindPlayerByConnection_elem _ _ _ Hfind) as [Hin _].
    split; [|split]; intros packet.
    + rewrite (global_chat_found client packet player s Hfind Hnd Hfree).
      rewrite (earlier_global_chat_found client packet player s Hfind). reflexivity.
    + rewrite (create_lobby_found client packet player s Hfind (Hfree _ Hin)).
      rewrite (earlier_create_lobby_found client packet player s Hfind). reflexivity.
    + rewrite (player_list_found client packet player s Hfind (Hfree _ Hin)).
      rewrite (earlier_player_list_found client packet player s Hfind). reflexivity.
  - pose proof (gets_frame _ s (set_deferred [] s) _ Hfind eq_refl) as Hq.
    split; [|split]; intros packet.
    + unfold HandleGlobalChatRequest, Earlier.HandleGlobalChatRequest, func.
      rewrite (bind_returns _ _ _ _ _ Hq), (bind_returns _ _ _ _ _ Hfind).
      cbn. f_equal. apply func_frame_unchanged.
    + unfold HandleCreateLobbyRequest, Earlier.HandleCreateLobbyRequest, func.
      rewrite (bind_returns _ _ _ _ _ Hq), (bind_returns _ _ _ _ _ Hfind).
      destruct s as [cs ls [] na nl w c lg h d]; reflexivity.
    + unfold HandlePlayerListRequest, Earlier.HandlePlayerListRequest, func.
      rewrite (bind_returns _ _ _ _ _ Hq), (bind_returns _ _ _ _ _ Hfind).
      destruct s as [cs ls [] na nl w c lg h d]; reflexivity.
Qed.

Lemma mutexes_change_no_outcome_witness :
  @HandleGlobalChatRequest flaky 12
    {| chat_Type := PacketTypeGlobalChatRequest; Message := "hi" |} lobby_server
  = @Earlier.HandleGlobalChatRequest flaky 12
      {| chat_Type := PacketTypeGlobalChatRequest; Message := "hi" |} lobby_server.
Proof.
  assert (NoDup (addr <$> Clients lobby_server)) as Hnd.
  { cbn. repeat (apply NoDup_cons; split; [rewrite ?elem_of_cons, elem_of_nil; lia|]).
    apply NoDup_nil_2. }
  assert (∀ p, p ∈ Clients lobby_server -> addr p ∉ held lobby_server) as Hfree
    by (intros p _; cbn; apply not_elem_of_nil).
  exact (proj1 (@mutexes_change_no_outcome flaky 12 lobby_server Hnd Hfree) _).
Defined.

(** X16.  The earlier copy's version handler: on a version other than
    [ProtocolVersion] it logs the mismatch whatever [Debug] says, writes the
    error packet "Protocol version mismatch." and closes the connection; on
    [ProtocolVersion] it does nothing, not even log the packet. *)
Theorem earlier_version_request `{Environment} (client : Conn) (packet : VersionPacket)
    (s : Server) :
  (Version packet ≠ ProtocolVersion ->
     Earlier.HandleVersionRequest client packet s
     = Returns tt
         (set_closed (closed s ++ [client])
            (set_written (written s ++ [(client, ErrorPacket "Protocol version mismatch.")])
               (set_logged (logged s ++ [LogVersionMismatch client]) s))))
  ∧ (Version packet = ProtocolVersion ->
       Earlier.HandleVersionRequest client packet s = Returns tt s).
Proof.
  unfold Earlier.HandleVersionRequest. split.
  - intros Hne. rewrite bool_decide_true by exact Hne. reflexivity.
  - intros Heq. rewrite bool_decide_false by (intros Hne; exact (Hne Heq)). reflexivity.
Qed.

Lemma earlier_version_request_witness :
  @Earlier.HandleVersionRequest quiet 11
    {| version_Type := PacketTypeVersionRequest; Version := 2 |} lobby_server
  = Returns tt
      (set_closed [11]
         (set_written [(11, ErrorPacket "Protocol version mismatch.")]
            (set_logged [LogVersionMismatch 11] lobby_server)))
  ∧ @Earlier.HandleVersionRequest quiet 11
      {| version_Type := PacketTypeVersionRequest; Version := 1 |} lobby_server
    = Returns tt lobby_server.
Proof.
  split.
  - apply (proj1 (@earlier_version_request quiet 11
                    {| version_Type := PacketTypeVersionRequest; Version := 2 |}
                    lobby_server)).
    cbn. discriminate.
  - apply (proj2 (@earlier_version_request quiet 11
                    {| version_Type := PacketTypeVersionRequest; Version := 1 |}
                    lobby_server)).
    reflexivity.
Defined.

(** X17.  The earlier copy's join handler resolves the lobby as the current
    one does, by ID and by name only when the ID resolved to nothing, and adds
    the player; it then writes [JoinLobbyResponse (lobbyName, lobbyID, true)]
    to the joiner alone, so the other members are not told. *)
Theorem earlier_join `{Environment} (client : Conn) (packet : JoinLobbyRequestPacket)
    (player : Player) (lobby : LobbyPtr) (l : Lobby) (s : Server) :
  FindPlayerByConnection client s = Returns (Ok player) s ->
  FindLobbyByID (join_ID packet) s = Returns (Ok lobby) s
  ∨ ((∃ e, FindLobbyByID (join_ID packet) s = Returns (Err e) s)
     ∧ FindLobbyByName (join_Name packet) s = Returns (Ok lobby) s) ->
  Lobbies s !! lobby = Some l ->
  Earlier.HandleJoinLobbyRequest client packet s
  = Returns None
      (set_written (written s ++ [(Client player, JoinLobbyResponse (name l) (lobby_id l) true)])
         (set_Lobbies (alter (add_member player) lobby (Lobbies s)) s)).
Proof.
  intros Hfind [Hid | [[e Hid] Hname]] Hl.
  - exact (earlier_join_answers_joiner client packet player lobby l s Hfind Hid Hl).
  - unfold Earlier.HandleJoinLobbyRequest.
    rewrite (bind_returns _ _ _ _ _ Hfind). cbv beta iota.
    rewrite (bind_returns _ _ _ _ _ Hid). cbv beta iota.
    rewrite (bind_returns _ _ _ _ _ Hname). cbv beta iota.
    unfold Lobby_AddPlayer, bind, deref. rewrite Hl. cbn [Lobbies set_Lobbies modify].
    rewrite list_lookup_alter_eq, Hl. cbn.
    destruct (add_member_name player l) as (-> & -> & _). reflexivity.
Qed.

Lemma earlier_join_witness :
  @Earlier.HandleJoinLobbyRequest quiet 13
    {| join_Type := PacketTypeJoinLobbyRequest; join_ID := 0; join_Name := "Foo" |}
    lobby_server
  = Returns None
      (set_written [(13, JoinLobbyResponse "Foo" 7 true)]
         (set_Lobbies [mkLobby 7 "Foo" alice [alice; bob; carol]] lobby_server)).
Proof.
  exact (@earlier_join quiet 13
           {| join_Type := PacketTypeJoinLobbyRequest; join_ID := 0; join_Name := "Foo" |}
           carol 0 foo lobby_server eq_refl
           (or_intror (conj (ex_intro _ (lookup_failed ByLobbyID) eq_refl) eq_refl))
           eq_refl).
Defined.
(** *** The client's sequence counter *)

Local Open Scope Z_scope.

(** Every [Send*] method writes exactly one packet to the client's connection,
    returns what the write returned, and steps the counter once, whether or
    not the write failed. *)
Lemma call_writes_and_counts `{Environment} (k : ClientSide.SendCall)
    (c : ClientSide.Client) (w : ClientSide.Wire) :
  ∃ packet,
    ClientSide.call k c w
    = (WritePacketError (ClientSide.Connection c) packet,
       ClientSide.mkClient (ClientSide.Connection c)
         (ClientSide.uint16 (ClientSide.Sequence c + 1)),
       w ++ [(ClientSide.Connection c, packet)]).
Proof. destruct k; eexists; reflexivity. Qed.

Lemma calls_sequence `{Environment} (ks : list ClientSide.SendCall)
    (c : ClientSide.Client) (w : ClientSide.Wire) :
  ClientSide.Sequence (ClientSide.calls ks c w).1 mod 65536
  = (ClientSide.Sequence c + Z.of_nat (length ks)) mod 65536.
Proof.
  revert c w. induction ks as [|k ks IH]; intros c w.
  - cbn. rewrite Z.add_0_r. reflexivity.
  - cbn [ClientSide.calls length].
    destruct (call_writes_and_counts k c w) as (packet & ->).
    rewrite IH. cbn [ClientSide.Sequence]. unfold ClientSide.uint16.
    rewrite Z.add_mod_idemp_l by lia. f_equal. lia.
Qed.

Lemma calls_in_range `{Environment} (ks : list ClientSide.SendCall)
    (c : ClientSide.Client) (w : ClientSide.Wire) :
  0 <= ClientSide.Sequence c < 65536 ->
  0 <= ClientSide.Sequence (ClientSide.calls ks c w).1 < 65536.
Proof.
  revert c w. induction ks as [|k ks IH]; intros c w Hc; [exact Hc|].
  cbn [ClientSide.calls]. destruct (call_writes_and_counts k c w) as (packet & ->).
  apply IH. cbn. unfold ClientSide.uint16. apply Z.mod_pos_bound. lia.
Qed.

(** C9, as the code has it.  The counter is a [uint16].  Every [Send*] method
    sets it to [(Sequence + 1) mod 65536] after writing its packet; below
    65535 that is one more than before, at 65535 it is 0.  So a run of sends
    that starts at [v] and is no longer than [65535 - v] ends at [v] plus the
    number of sends, and a run of any length ends at that sum modulo 65536. *)
Theorem sends_step_sequence `{Environment} (c : ClientSide.Client) (w : ClientSide.Wire) :
  0 <= ClientSide.Sequence c < 65536 ->
  (∀ k, ClientSide.Sequence (ClientSide.call k c w).1.2
        = (ClientSide.Sequence c + 1) mod 65536
      ∧ (ClientSide.Sequence c < 65535 ->
         ClientSide.Sequence (ClientSide.call k c w).1.2 = ClientSide.Sequence c + 1)
      ∧ (ClientSide.Sequence c = 65535 ->
         ClientSide.Sequence (ClientSide.call k c w).1.2 = 0)
      ∧ ∃ packet, (ClientSide.call k c w).2 = w ++ [(ClientSide.Connection c, packet)])
  ∧ (∀ ks, ClientSide.Sequence (ClientSide.calls ks c w).1
           = (ClientSide.Sequence c + Z.of_nat (length ks)) mod 65536)
  ∧ (∀ ks, ClientSide.Sequence c + Z.of_nat (length ks) <= 65535 ->
           ClientSide.Sequence (ClientSide.calls ks c w).1
           = ClientSide.Sequence c + Z.of_nat (length ks)).
Proof.
  intros Hc.
  assert (∀ ks, ClientSide.Sequence (ClientSide.calls ks c w).1
                = (ClientSide.Sequence c + Z.of_nat (length ks)) mod 65536) as Hruns.
  { intros ks. rewrite <- (calls_sequence ks c w). symmetry. apply Z.mod_small.
    apply calls_in_range. exact Hc. }
  split; [|split; [exact Hruns|]].
  - intros k. destruct (call_writes_and_counts k c w) as (packet & ->).
    cbn. unfold ClientSide.uint16. split; [reflexivity|]. split; [|split].
    + intros Hlt. apply Z.mod_small. lia.
    + intros ->. reflexivity.
    + exists packet. reflexivity.
  - intros ks Hle. rewrite Hruns. apply Z.mod_small. lia.
Qed.

Lemma sends_step_sequence_witness :
  ClientSide.Sequence
    (@ClientSide.call quiet ClientSide.CallExitRequest (ClientSide.mkClient 1 41) []).1.2
  = 42
  ∧ ClientSide.Sequence
      (@ClientSide.calls quiet
         [ClientSide.CallVersionRequest;
          ClientSide.CallLoginRequest "Alice" "alice" "alice";
          ClientSide.CallJoinLobbyRequest "Foo"]
         (ClientSide.mkClient 1 41) []).1
    = 44.
Proof.
  assert (0 <= ClientSide.Sequence (ClientSide.mkClient 1 41) < 65536) as Hc
    by (cbn; lia).
  destruct (@sends_step_sequence quiet (ClientSide.mkClient 1 41) [] Hc)
    as (Hcall & _ & Hrun).
  split.
  - destruct (Hcall ClientSide.CallExitRequest) as (_ & Hbelow & _).
    apply Hbelow. reflexivity.
  - apply (Hrun [ClientSide.CallVersionRequest;
                 ClientSide.CallLoginRequest "Alice" "alice" "alice";
                 ClientSide.CallJoinLobbyRequest "Foo"]).
    vm_compute. discriminate.
Defined.

(** After 65535 sends a fresh client's counter is 65535, and the next send
    takes it back to 0: the counter has not increased. *)
Lemma sequence_wraps :
  (∀ ks, Z.of_nat (length ks) = 65535 ->
     ClientSide.Sequence (@ClientSide.calls quiet ks ClientSide.NewClient []).1 = 65535)
  ∧ ClientSide.Sequence
      (@ClientSide.SendVersionRequest quiet (ClientSide.mkClient 1 65535) []).1.2 = 0
  ∧ ¬ (ClientSide.Sequence (ClientSide.mkClient 1 65535)
       <= ClientSide.Sequence
            (@ClientSide.SendVersionRequest quiet (ClientSide.mkClient 1 65535) []).1.2).
Proof.
  split; [|split].
  - intros ks Hlen.
    assert (0 <= ClientSide.Sequence ClientSide.NewClient < 65536) as Hc by (cbn; lia).
    rewrite <- (Z.mod_small _ 65536 (@calls_in_range quiet ks _ [] Hc)).
    rewrite (@calls_sequence quiet ks ClientSide.NewClient []), Hlen. reflexivity.
  - reflexivity.
  - vm_compute. intros Hle. apply Hle. reflexivity.
Qed.

(** *** What the client sends, and what the server does with it *)

(** X18.  Every [Send*] method writes one packet to the client's connection,
    tagged with the tag of its own packet type, and returns what the write
    returned.  Seven of the nine requests have a case in the server's
    dispatcher; an exit request and a card-pile request have none. *)
Theorem requests_carry_their_tag `{Environment} (k : ClientSide.SendCall)
    (c : ClientSide.Client) (w : ClientSide.Wire) :
  ∃ packet,
    (ClientSide.call k c w).2 = w ++ [(ClientSide.Connection c, packet)]
    ∧ (ClientSide.call k c w).1.1 = WritePacketError (ClientSide.Connection c) packet
    ∧ ClientSide.Connection (ClientSide.call k c w).1.2 = ClientSide.Connection c
    ∧ GetHeader_Type packet = payload_tag packet
    ∧ dispatched (GetHeader_Type packet)
      = match k with
        | ClientSide.CallExitRequest | ClientSide.CallGetCardPile _ => false
        | _ => true
        end.
Proof. destruct k; eexists; repeat split. Qed.

(** X19.  The version request a client sends is accepted by a server built
    with the same [ProtocolVersion]: dispatched, it logs the packet and does
    nothing else, so no error packet is written and the connection stays
    open.  The earlier copy's server does nothing at all. *)
Theorem own_version_accepted `{Environment} (c : ClientSide.Client) (w : ClientSide.Wire)
    (client : Conn) (s : Server) :
  ∃ p, (ClientSide.SendVersionRequest c w).2 = w ++ [(ClientSide.Connection c, PVersion p)]
     ∧ HandlePacket client (PVersion p) s
       = Returns tt (set_logged (logged s ++ [LogVersionPacket p]) s)
     ∧ Earlier.HandlePacket client (PVersion p) s = Returns tt s.
Proof.
  eexists. split; [reflexivity|].
  unfold HandlePacket, Earlier.HandlePacket, HandleVersionRequest,
    Earlier.HandleVersionRequest. cbn [GetHeader_Type version_Type Version].
  rewrite bool_decide_false by (intros Hne; apply Hne; reflexivity).
  split; reflexivity.
Qed.

(** X20.  [SendGetArchivePile] writes one card-pile request for
    [CardPileArchive] and steps the counter; the write's error is lost.
    Neither copy of the dispatcher has a case for the request: the server
    drops it. *)
Theorem archive_pile_request `{Environment} (c : ClientSide.Client) (w : ClientSide.Wire) :
  let packet :=
    PCardPileRequest {| pile_Type := PacketTypeCardPileRequest; Pile := CardPileArchive |} in
  ClientSide.SendGetArchivePile c w
  = (ClientSide.mkClient (ClientSide.Connection c)
       (ClientSide.uint16 (ClientSide.Sequence c + 1)),
     w ++ [(ClientSide.Connection c, packet)])
  ∧ ∀ client s, HandlePacket client packet s = Returns tt s
              ∧ Earlier.HandlePacket client packet s = Returns tt s.
Proof. cbv zeta. split; [reflexivity|]. intros client s. split; reflexivity. Qed.

Lemma calls_wire `{Environment} (ks : list ClientSide.SendCall) (c : ClientSide.Client)
    (w : ClientSide.Wire) :
  ClientSide.Connection (ClientSide.calls ks c w).1 = ClientSide.Connection c
  ∧ ∃ l, (ClientSide.calls ks c w).2 = w ++ l
       ∧ length l = length ks
       ∧ Forall (fun x => x.1 = ClientSide.Connection c) l.
Proof.
  revert c w. induction ks as [|k ks IH]; intros c w.
  - split; [reflexivity|]. exists []. rewrite app_nil_r. repeat split. apply Forall_nil_2.
  - cbn [ClientSide.calls]. destruct (call_writes_and_counts k c w) as (packet & ->).
    destruct (IH (ClientSide.mkClient (ClientSide.Connection c)
                    (ClientSide.uint16 (ClientSide.Sequence c + 1)))
                 (w ++ [(ClientSide.Connection c, packet)])) as (Hconn & l & Hw & Hlen & Hall).
    split; [exact Hconn|]. exists ((ClientSide.Connection c, packet) :: l).
    split; [rewrite Hw, <- app_assoc; reflexivity|].
    split; [cbn; rewrite Hlen; reflexivity|].
    apply Forall_cons. split; [reflexivity | exact Hall].
Qed.

(** X21.  [Connect] returns the error of [net.Dial] and stores the
    connection [net.Dial] returned whether or not dialling failed; it never
    touches the counter.  So a run of sends after a (re)connect writes all
    its packets to the connection the last dial returned, and the counter
    goes on from where it was. *)
Theorem connect_then_send `{Environment} (c : ClientSide.Client) (address : string)
    (ks : list ClientSide.SendCall) (w : ClientSide.Wire) :
  0 <= ClientSide.Sequence c < 65536 ->
  (ClientSide.Connect c address).1 = (Dial address).2
  ∧ ClientSide.Connection (ClientSide.Connect c address).2 = (Dial address).1
  ∧ ClientSide.Sequence (ClientSide.calls ks (ClientSide.Connect c address).2 w).1
    = (ClientSide.Sequence c + Z.of_nat (length ks)) mod 65536
  ∧ ∃ l, (ClientSide.calls ks (ClientSide.Connect c address).2 w).2 = w ++ l
       ∧ length l = length ks
       ∧ Forall (fun x => x.1 = (Dial address).1) l.
Proof.
  intros Hc.
  assert (ClientSide.Connect c address
          = ((Dial address).2, ClientSide.mkClient (Dial address).1 (ClientSide.Sequence c)))
    as Hconnect.
  { unfold ClientSide.Connect. destruct (Dial address) as [conn [e|]]; reflexivity. }
  rewrite Hconnect. cbn [fst snd].
  split; [reflexivity|]. split; [reflexivity|]. split.
  - pose (ClientSide.mkClient (Dial address).1 (ClientSide.Sequence c)) as c'.
    change (ClientSide.Sequence c) with (ClientSide.Sequence c') at 2.
    rewrite <- (calls_sequence ks c' w). symmetry. apply Z.mod_small.
    apply (calls_in_range ks c' w). exact Hc.
  - exact (proj2 (calls_wire ks _ w)).
Qed.

Lemma connect_then_send_witness :
  (@ClientSide.Connect flaky (ClientSide.mkClient 1 41) "nowhere").1 = Some (foreign 111)
  ∧ ClientSide.Sequence
      (@ClientSide.calls flaky [ClientSide.CallVersionRequest; ClientSide.CallExitRequest]
         (@ClientSide.Connect flaky (ClientSide.mkClient 1 41) "nowhere").2 []).1
    = 43
  ∧ ∃ l, (@ClientSide.calls flaky [ClientSide.CallVersionRequest; ClientSide.CallExitRequest]
            (@ClientSide.Connect flaky (ClientSide.mkClient 1 41) "nowhere").2 []).2 = l
       ∧ length l = 2%nat
       ∧ Forall (fun x => x.1 = 0%nat) l.
Proof.
  assert (0 <= ClientSide.Sequence (ClientSide.mkClient 1 41) < 65536) as Hc by (cbn; lia).
  destruct (@connect_then_send flaky (ClientSide.mkClient 1 41) "nowhere"
              [ClientSide.CallVersionRequest; ClientSide.CallExitRequest] [] Hc)
    as (Herr & _ & Hseq & l & Hw & Hlen & Hall).
  split; [exact Herr|]. split; [exact Hseq|].
  exists l. split; [exact Hw|]. split; [exact Hlen | exact Hall].
Defined.
